(** * ServiceNow cause automation: the decision core of [app/app.py]

    A shallow embedding of [is_valid_cause], [ai_fallback_suggest] and
    [process_ticket], and of the write-back that the two callers (single
    and bulk mode) perform on the tickets table.

    Python strings are sequences of code points; they are modelled by
    [string], one [ascii] per code point, which covers the code points
    below 256 (Latin-1).  [str.lower] and [str.strip] are written out for
    that range. *)

From Stdlib Require Import String Ascii List ZArith NArith Bool Lia.
From Stdlib Require Import DecimalString.
Import ListNotations.

Local Open Scope string_scope.
Local Open Scope bool_scope.

(** ** Python values and exceptions *)

Module Py.

(** The cell values a row of the tickets table and the reference lists
    hold: text, a missing cell (the float NaN that pandas reads for an
    empty cell), [None], and whole numbers. *)
Inductive pyval : Type :=
  | VStr (s : string)
  | VNaN
  | VNone
  | VInt (z : Z).

(** The exceptions the core can raise. *)
Inductive exn : Type :=
  | AttributeError   (* [.lower()] on a value that is not a str *)
  | IndexError.      (* [canonical_categories[0]] on an empty list *)

Inductive result (A : Type) : Type :=
  | Ok (a : A)
  | Raise (e : exn).
Arguments Ok {A} a.
Arguments Raise {A} e.

Definition bind {A B : Type} (m : result A) (k : A -> result B) : result B :=
  match m with
  | Ok a => k a
  | Raise e => Raise e
  end.

Notation "x <- m ;; k" := (bind m (fun x => k))
  (at level 61, m at next level, right associativity).
Notation "' p <- m ;; k" := (bind m (fun x => let p := x in k))
  (at level 61, p pattern, m at next level, right associativity).

(** [str(v)], which is also what an f-string substitutes for [{v}]. *)
Definition str (v : pyval) : string :=
  match v with
  | VStr s => s
  | VNaN => "nan"
  | VNone => "None"
  | VInt z => NilZero.string_of_int (Z.to_int z)
  end.

(** [pd.isna(v)] on a scalar. *)
Definition isna (v : pyval) : bool :=
  match v with
  | VNaN | VNone => true
  | VStr _ | VInt _ => false
  end.

(** *** Characters *)

Definition code (c : ascii) : N := N_of_ascii c.

Definition between (lo hi n : N) : bool := (lo <=? n)%N && (n <=? hi)%N.

(** [c.isspace()]: tab to carriage return, the four separators
    0x1c-0x1f, the space, NEL and the no-break space. *)
Definition isspace (c : ascii) : bool :=
  let n := code c in
  between 9 13 n || between 28 32 n || (n =? 133)%N || (n =? 160)%N.

(** [c.lower()]: A-Z and the Latin-1 capitals 0xc0-0xde (the
    multiplication sign 0xd7 apart) move up by 32. *)
Definition lower_char (c : ascii) : ascii :=
  let n := code c in
  if between 65 90 n || between 192 214 n || between 216 222 n
  then ascii_of_N (n + 32)
  else c.

(** *** Strings *)

(** [s.lower()] *)
Fixpoint lower (s : string) : string :=
  match s with
  | EmptyString => EmptyString
  | String c t => String (lower_char c) (lower t)
  end.

(** [s.lstrip()] *)
Fixpoint lstrip (s : string) : string :=
  match s with
  | EmptyString => EmptyString
  | String c t => if isspace c then lstrip t else s
  end.

(** [s.rstrip()]: a character goes when it is white space and nothing
    is left of what follows it. *)
Fixpoint rstrip (s : string) : string :=
  match s with
  | EmptyString => EmptyString
  | String c t =>
      match rstrip t with
      | EmptyString => if isspace c then EmptyString else String c EmptyString
      | t' => String c t'
      end
  end.

(** [s.strip()] *)
Definition strip (s : string) : string := rstrip (lstrip s).

(** [needle in hay] for two strs: [needle] starts at some position of
    [hay] (the empty needle at every one). *)
Fixpoint contains (needle hay : string) : bool :=
  prefix needle hay ||
  match hay with
  | EmptyString => false
  | String _ t => contains needle t
  end.

(** [s[:n]] *)
Fixpoint take (n : nat) (s : string) : string :=
  match n, s with
  | S k, String c t => String c (take k t)
  | _, _ => EmptyString
  end.

(** The three characters of the separator [" - "]. *)
Definition is_sep (c1 c2 c3 : ascii) : bool :=
  Ascii.eqb c1 " " && Ascii.eqb c2 "-" && Ascii.eqb c3 " ".

(** Puts a character in front of the part being read. *)
Definition push_char (c : ascii) (parts : list string) : list string :=
  match parts with
  | p :: ps => String c p :: ps
  | [] => [String c EmptyString]
  end.

(** [s.split(" - ")]: the string is read from the left; where the
    separator stands, the current part ends and reading goes on behind
    the separator. *)
Fixpoint split_sep (s : string) : list string :=
  match s with
  | EmptyString => [EmptyString]
  | String c1 t =>
      match t with
      | String c2 (String c3 rest) =>
          if is_sep c1 c2 c3 then EmptyString :: split_sep rest
          else push_char c1 (split_sep t)
      | _ => push_char c1 (split_sep t)
      end
  end.

(** [s in l] for a str [s] and a list [l]: some element is a str equal
    to [s].  A str equals no number, NaN or [None]. *)
Definition str_in (s : string) (l : list pyval) : bool :=
  existsb (fun v => match v with VStr t => String.eqb s t | _ => false end) l.

(** [any(w in text for w in words)] *)
Definition any_in (words : list string) (text : string) : bool :=
  existsb (fun w => contains w text) words.

End Py.
Import Py.

(** ** The tickets table and the reference lists *)

(** A row of the tickets table.  The table has these columns for every
    row; a cell that is missing in the sheet holds [VNaN]. *)
Record ticket : Type := mkTicket {
  ticket_number : pyval;
  service_offering : pyval;
  short_description : pyval;
  description : pyval;
  work_notes : pyval;
  existing_cause : pyval
}.

(** What [process_ticket] returns: [(cause, confidence, reason)], the
    first two [None] for a skipped ticket. *)
Definition outcome : Type := (option string * option Z * string)%type.

(** ** [is_valid_cause] (lines 7-23) *)

Definition is_valid_cause (cause_text : pyval)
    (service_offerings canonical_categories : list pyval) : bool :=
  if isna cause_text || (strip (str cause_text) =? "") then false
  else
    let parts := map strip (split_sep (str cause_text)) in
    match parts with
    | [service; category; rca] =>
        if negb (str_in service service_offerings) then false
        else if negb (str_in category canonical_categories) then false
        else if rca =? "" then false
        else true
    | _ => false
    end.

(** ** [ai_fallback_suggest] (lines 29-36) *)

Definition ai_fallback_suggest (text_blob : string)
    (canonical_categories : list pyval) : result (pyval * string) :=
  if contains "resolved" text_blob || contains "fixed" text_blob
  then Ok (VStr "Configuration issue", "Resolved after configuration check")
  else if contains "working" text_blob || contains "no issue" text_blob
  then Ok (VStr "Configuration issue", "No fault found")
  else
    match canonical_categories with
    | first :: _ => Ok (first, "Root cause under investigation")
    | [] => Raise IndexError
    end.

(** ** [process_ticket] (lines 42-100), step by step *)

(** Lines 51-55: the lower-cased text of the three free-text cells. *)
Definition text_blob_of (ticket_row : ticket) : string :=
  lower (str (short_description ticket_row) ++ " " ++
         str (description ticket_row) ++ " " ++
         str (work_notes ticket_row)).

(** Lines 58-67: the rule-based category. *)
Definition rule_category (text_blob : string) : string :=
  if any_in ["login"; "access"; "unauthorized"] text_blob then "Access issue"
  else if any_in ["offline"; "down"; "not reachable"] text_blob then "Offline issue"
  else if any_in ["timeout"; "network"; "connectivity"] text_blob then "Connectivity issue"
  else if any_in ["screen"; "display"; "black"] text_blob then "Display issue"
  else "Configuration issue".

(** The variables [matched_rca], [confidence] and [reason]. *)
Definition rca_state : Type := (string * Z * string)%type.

(** Lines 74-79: the loop over the catalog.  It stops at the first
    phrase whose lower-cased form occurs in the text; an entry that is
    not a str has no [lower] and raises. *)
Fixpoint match_existing_rca (text_blob : string) (rca_list : list pyval)
    (st : rca_state) : result rca_state :=
  match rca_list with
  | [] => Ok st
  | VStr rca :: rest =>
      if contains (lower rca) text_blob
      then Ok (rca, 90%Z, "Matched existing RCA: " ++ rca)
      else match_existing_rca text_blob rest st
  | _ :: _ => Raise AttributeError
  end.

(** Lines 82-88: a new phrase from the work notes. *)
Definition new_rca_from_notes (notes : pyval) : rca_state :=
  let new_rca := strip (str notes) in
  let new_rca :=
    if (new_rca =? "") || (lower new_rca =? "nan")
    then "Root cause under investigation"
    else new_rca in
  (take 50 new_rca, 60%Z, "New RCA created from work notes").

(** Lines 69-88: the root-cause resolution step. *)
Definition resolve_rca (text_blob : string) (rca_list : list pyval)
    (notes : pyval) : result rca_state :=
  '(matched_rca, confidence, reason) <-
     match_existing_rca text_blob rca_list
       ("Under analysis", 50%Z, "Rule-based default") ;;
  if matched_rca =? "Under analysis"
  then Ok (new_rca_from_notes notes)
  else Ok (matched_rca, confidence, reason).

(** Lines 91-96: the fallback, taken when the confidence is below 75. *)
Definition apply_fallback (text_blob : string) (canonical_categories : list pyval)
    (category : pyval) (st : rca_state) : result (pyval * rca_state) :=
  let '(matched_rca, confidence, reason) := st in
  if (confidence <? 75)%Z
  then
    '(ai_category, ai_rca) <- ai_fallback_suggest text_blob canonical_categories ;;
    Ok (ai_category, (ai_rca, 70%Z, "AI fallback used"))
  else Ok (category, st).

(** Line 98: the composed cause. *)
Definition compose_cause (service category : pyval) (matched_rca : string) : string :=
  str service ++ " - " ++ str category ++ " - " ++ matched_rca.

(** Lines 51-96: category, root cause, confidence and reason of a
    ticket that is not skipped. *)
Definition derive_cause (ticket_row : ticket) (rca_list canonical_categories : list pyval)
    : result (pyval * rca_state) :=
  let text_blob := text_blob_of ticket_row in
  let category := rule_category text_blob in
  st <- resolve_rca text_blob rca_list (work_notes ticket_row) ;;
  apply_fallback text_blob canonical_categories (VStr category) st.

Definition process_ticket (ticket_row : ticket)
    (rca_list service_offerings canonical_categories : list pyval) : result outcome :=
  let service_offering := service_offering ticket_row in
  let existing_cause := existing_cause ticket_row in
  if is_valid_cause existing_cause service_offerings canonical_categories
  then Ok (None, None, "Skipped (already valid)")
  else
    '(category, (matched_rca, confidence, reason)) <-
       derive_cause ticket_row rca_list canonical_categories ;;
    let cause := compose_cause service_offering category matched_rca in
    Ok (Some cause, Some confidence, reason).

(** ** The callers (lines 139-150 and 172-180) *)

(** [if cause:] *)
Definition truthy (cause : option string) : bool :=
  match cause with
  | Some c => negb (c =? "")
  | None => false
  end.

(** The write of the cause into the ticket's [existing_cause] cell. *)
Definition write_back (ticket_row : ticket) (out : outcome) : ticket :=
  let '(cause, _, _) := out in
  match cause with
  | Some c =>
      if truthy cause
      then mkTicket (ticket_number ticket_row) (service_offering ticket_row)
             (short_description ticket_row) (description ticket_row)
             (work_notes ticket_row) (VStr c)
      else ticket_row
  | None => ticket_row
  end.

(** One ticket of either mode: the outcome and the row afterwards. *)
Definition update_ticket (ticket_row : ticket)
    (rca_list service_offerings canonical_categories : list pyval)
    : result (ticket * outcome) :=
  out <- process_ticket ticket_row rca_list service_offerings canonical_categories ;;
  Ok (write_back ticket_row out, out).

(** ** Predicates on texts and catalogs used in the statements *)

(** Every character of the string is white space. *)
Fixpoint all_space (s : string) : bool :=
  match s with
  | EmptyString => true
  | String c t => isspace c && all_space t
  end.

(** No phrase of the catalog matches: every entry is a str whose
    lower-cased form does not occur in the text. *)
Definition no_catalog_match (text_blob : string) (rca_list : list pyval) : bool :=
  forallb (fun v => match v with
                    | VStr rca => negb (contains (lower rca) text_blob)
                    | _ => false
                    end) rca_list.

(** Every entry of the catalog is a str that is not empty. *)
Definition catalog_of_phrases (rca_list : list pyval) : bool :=
  forallb (fun v => match v with
                    | VStr rca => negb (rca =? "")
                    | _ => false
                    end) rca_list.

(** [s.endswith(suffix)] *)
Fixpoint ends_with (suffix s : string) : bool :=
  (s =? suffix) ||
  match s with
  | EmptyString => false
  | String _ t => ends_with suffix t
  end.

(** Lines 30 and 33 both fail: [ai_fallback_suggest] is in its default
    branch. *)
Definition default_branch (text_blob : string) : bool :=
  negb (contains "resolved" text_blob || contains "fixed" text_blob) &&
  negb (contains "working" text_blob || contains "no issue" text_blob).

(** ** Sample tickets and work notes *)

(** The ticket of the end-to-end example, under a ticket number. *)
Definition laptop_row (number : pyval) : ticket :=
  mkTicket number (VStr "Laptop") (VStr "")
    (VStr "Unable to login, access denied")
    (VStr "issue resolved after password reset") (VStr "").

Definition laptop_ticket : ticket := laptop_row (VStr "INC001").

(** A ticket whose service offering holds the separator. *)
Definition exchange_ticket : ticket :=
  mkTicket (VStr "INC002") (VStr "Email - Exchange") (VStr "")
    (VStr "mailbox sync fixed") (VStr "") (VStr "").

(** Two tickets that differ in the description only: a missing cell in
    the first, the empty text in the second. *)
Definition jam_ticket_missing : ticket :=
  mkTicket (VStr "INC003") (VStr "Printer") (VStr "Paper jam") VNaN
    (VStr "Tray cleaned") (VStr "").

Definition jam_ticket_empty : ticket :=
  mkTicket (VStr "INC003") (VStr "Printer") (VStr "Paper jam") (VStr "")
    (VStr "Tray cleaned") (VStr "").

(** A ticket whose existing cause is well formed. *)
Definition valid_ticket : ticket :=
  mkTicket (VStr "INC004") (VStr "Laptop") (VStr "")
    (VStr "Unable to login, access denied") (VStr "")
    (VStr "Laptop - Configuration issue - Resolved after configuration check").

(** A ticket for canonical categories whose first entry,
    ["Sign -in issue"], holds [" -"], but not at its end. *)
Definition sign_in_ticket : ticket :=
  mkTicket (VStr "INC006") (VStr "Laptop") (VStr "Cannot sign in")
    (VStr "password expired") (VStr "") (VStr "").

(** A row of a table that holds numbers only, and the Series that
    pandas makes of it: the whole numbers have become floats. *)
Definition numeric_row : ticket :=
  mkTicket (VInt 1) (VInt 2) (VInt 3) (VInt 4) (VInt 5) VNaN.

Definition numeric_row_series : ticket :=
  mkTicket (VStr "1.0") (VStr "2.0") (VStr "3.0") (VStr "4.0") (VStr "5.0") VNaN.

(** Work notes of 80 characters, the first 35 of them spaces. *)
Definition padded_notes : string :=
  "                                   replaced the failed network switch in rack 12".

(** Work notes of 80 characters without white space at the ends. *)
Definition long_notes : string :=
  "Replaced the failed network switch in rack 12 and restored the uplink to floor 3".

(** ** Loading the reference lists and the two modes of the page *)

(** [column.dropna().tolist()] (lines 115, 119 and 122): the cells of a
    sheet column that are not missing, in their order. *)
Definition dropna (cells : list pyval) : list pyval :=
  filter (fun v => negb (isna v)) cells.

(** One cell of [tickets_df["ticket_number"] == selected_ticket]
    (lines 136 and 148): two texts or two whole numbers that are equal;
    a missing cell equals nothing. *)
Definition cell_eq (cell selected : pyval) : bool :=
  match cell, selected with
  | VStr a, VStr b => String.eqb a b
  | VInt a, VInt b => Z.eqb a b
  | _, _ => false
  end.

(** The row with [existing_cause] set to the text [cause]. *)
Definition set_existing_cause (ticket_row : ticket) (cause : string) : ticket :=
  mkTicket (ticket_number ticket_row) (service_offering ticket_row)
    (short_description ticket_row) (description ticket_row)
    (work_notes ticket_row) (VStr cause).

(** Single mode (lines 136-158): the first row with the selected
    number is processed ([.iloc[0]] raises when there is none), and the
    cause is written to every row with that number.

    [process_ticket] does not get the row of the table but the Series
    that [.iloc[0]] makes of it, which has one dtype for all its cells:
    in a table with a text column the cells are those of the table, in
    a table of numbers only whole numbers arrive as floats.  That part
    of pandas is the parameter [as_series]; the cause is written to the
    rows of the table.  [process_ticket] reads a cell of its row
    through [str()], [pd.isna()] and the f-string only, which give the
    same for a float and for the text that Python prints for it, so in
    the Series a float cell is held as that text. *)
Definition single_mode (as_series : ticket -> ticket)
    (tickets_df : list ticket) (selected_ticket : pyval)
    (rca_list service_offerings canonical_categories : list pyval)
    : result (list ticket * outcome) :=
  match find (fun r => cell_eq (ticket_number r) selected_ticket) tickets_df with
  | None => Raise IndexError
  | Some first =>
      let ticket_data := as_series first in
      out <- process_ticket ticket_data rca_list service_offerings canonical_categories ;;
      let '(cause, _, _) := out in
      match cause with
      | Some c =>
          if truthy cause
          then Ok (map (fun r => if cell_eq (ticket_number r) selected_ticket
                                 then set_existing_cause r c else r) tickets_df, out)
          else Ok (tickets_df, out)
      | None => Ok (tickets_df, out)
      end
  end.

(** The counters [processed], [skipped] and [ai_used] of bulk mode. *)
Record counters : Type := mkCounters {
  processed : nat;
  skipped : nat;
  ai_used : nat
}.

(** Lines 179-186: the counters after one outcome. *)
Definition count_outcome (c : counters) (out : outcome) : counters :=
  let '(cause, _, reason) := out in
  if truthy cause
  then mkCounters (S (processed c)) (skipped c)
         (if contains "AI fallback" reason then S (ai_used c) else ai_used c)
  else mkCounters (processed c) (S (skipped c)) (ai_used c).

(** Lines 171-186: the loop of bulk mode over the rows; an exception
    of [process_ticket] ends it.  [iterrows()] hands each row over as a
    Series, as [.iloc[0]] does in single mode: [as_series] stands for
    it, and the cause is written to the row of the table. *)
Fixpoint bulk_loop (as_series : ticket -> ticket) (rows : list ticket)
    (rca_list service_offerings canonical_categories : list pyval)
    (c : counters) : result (list ticket * counters) :=
  match rows with
  | [] => Ok ([], c)
  | row :: rest =>
      out <- process_ticket (as_series row) rca_list service_offerings
               canonical_categories ;;
      '(rest', c') <- bulk_loop as_series rest rca_list service_offerings
                        canonical_categories (count_outcome c out) ;;
      Ok (write_back row out :: rest', c')
  end.

(** Bulk mode (lines 166-193): the table and the counters at the end. *)
Definition bulk_mode (as_series : ticket -> ticket) (tickets_df : list ticket)
    (rca_list service_offerings canonical_categories : list pyval)
    : result (list ticket * counters) :=
  bulk_loop as_series tickets_df rca_list service_offerings canonical_categories
    (mkCounters 0 0 0).

(** Every cell is a text or a missing cell. *)
Definition text_column (cells : list pyval) : bool :=
  forallb (fun v => match v with VStr _ | VNaN | VNone => true | VInt _ => false end) cells.

(** Two rows agree on every cell but [existing_cause]. *)
Definition same_but_cause (r1 r2 : ticket) : Prop :=
  ticket_number r1 = ticket_number r2 /\
  service_offering r1 = service_offering r2 /\
  short_description r1 = short_description r2 /\
  description r1 = description r2 /\
  work_notes r1 = work_notes r2.

(** ** The operations on sample inputs *)

Example str_int : str (VInt 0) = "0" /\ str (VInt (-12)) = "-12" /\ str (VInt 305) = "305".
Proof. repeat split; reflexivity. Qed.

Example split_ex1 : split_sep "a - b - c" = ["a"; "b"; "c"].
Proof. reflexivity. Qed.
Example split_ex2 : split_sep "A - - - B - r" = ["A"; "-"; "B"; "r"].
Proof. reflexivity. Qed.
Example split_ex3 : split_sep "a - " = ["a"; ""].
Proof. reflexivity. Qed.
Example split_ex4 : split_sep " -  - " = [""; ""; ""] /\ split_sep "a -b- c" = ["a -b- c"].
Proof. split; reflexivity. Qed.
Example strip_ex : strip "  a b  " = "a b" /\ strip "   " = "" /\ lower "AbZ-[@" = "abz-[@".
Proof. repeat split; reflexivity. Qed.
Example contains_ex : contains "" "" = true /\ contains "nan" "a nan b" = true /\ contains "ab" "a b" = false.
Proof. repeat split; reflexivity. Qed.

Example laptop_run :
  process_ticket laptop_ticket [VStr "Disk full"] [VStr "Laptop"] [VStr "Configuration issue"]
  = Ok (Some "Laptop - Configuration issue - Resolved after configuration check", Some 70%Z, "AI fallback used").
Proof. reflexivity. Qed.

(** ** Facts about the string operations *)

Section StringFacts.

Lemma lower_length (s : string) : String.length (lower s) = String.length s.
Proof. induction s as [|c t IH]; simpl; congruence. Qed.

Lemma take_length (n : nat) (s : string) : String.length (take n s) = Nat.min n (String.length s).
Proof.
  revert s; induction n as [|k IH]; intros [|c t]; simpl; auto.
Qed.

Lemma take_nonempty (n : nat) (s : string) : s <> "" -> take (S n) s <> "".
Proof. destruct s as [|c t]; simpl; [congruence | discriminate]. Qed.

Lemma length_zero (s : string) : String.length s = 0 -> s = "".
Proof. destruct s; simpl; [reflexivity | discriminate]. Qed.

Lemma rstrip_empty (s : string) : rstrip s = "" -> all_space s = true.
Proof.
  induction s as [|c t IH]; simpl; auto.
  destruct (rstrip t) eqn:E; [|discriminate].
  destruct (isspace c); [intros _; simpl; auto | discriminate].
Qed.

Lemma lstrip_all_space (s : string) : all_space (lstrip s) = true -> all_space s = true.
Proof.
  induction s as [|c t IH]; simpl; auto.
  destruct (isspace c) eqn:E; simpl; auto.
  rewrite E; simpl; discriminate.
Qed.

Lemma strip_empty (s : string) : strip s = "" -> all_space s = true.
Proof. intros H. apply lstrip_all_space, rstrip_empty, H. Qed.

Lemma rstrip_length (s : string) : String.length (rstrip s) <= String.length s.
Proof.
  induction s as [|c t IH]; simpl; auto.
  destruct (rstrip t); [destruct (isspace c)|]; simpl in *; lia.
Qed.

Lemma lstrip_length (s : string) : String.length (lstrip s) <= String.length s.
Proof.
  induction s as [|c t IH]; simpl; auto.
  destruct (isspace c); simpl; lia.
Qed.

Lemma strip_length (s : string) : String.length (strip s) <= String.length s.
Proof.
  unfold strip. pose proof (rstrip_length (lstrip s)). pose proof (lstrip_length s). lia.
Qed.

(** *** Splitting *)

Lemma split_sep_three (c1 c2 c3 : ascii) (rest : string) :
  split_sep (String c1 (String c2 (String c3 rest))) =
  if is_sep c1 c2 c3 then "" :: split_sep rest
  else push_char c1 (split_sep (String c2 (String c3 rest))).
Proof. reflexivity. Qed.

Lemma is_sep_true (c1 c2 c3 : ascii) :
  is_sep c1 c2 c3 = true -> c1 = " "%char /\ c2 = "-"%char /\ c3 = " "%char.
Proof.
  unfold is_sep. rewrite !andb_true_iff, !Ascii.eqb_eq. tauto.
Qed.

Lemma all_space_single (s : string) : all_space s = true -> split_sep s = [s].
Proof.
  induction s as [|c1 t IH]; simpl all_space; [reflexivity|].
  rewrite andb_true_iff. intros [_ Ht]. specialize (IH Ht).
  destruct t as [|c2 [|c3 rest]].
  - reflexivity.
  - reflexivity.
  - rewrite split_sep_three. destruct (is_sep c1 c2 c3) eqn:E.
    + apply is_sep_true in E. destruct E as (_ & -> & _). simpl in Ht. discriminate.
    + rewrite IH. reflexivity.
Qed.

Lemma prefix_cons (c d : ascii) (p s : string) :
  prefix (String c p) (String d s) = Ascii.eqb c d && prefix p s.
Proof.
  simpl. destruct (ascii_dec c d) as [->|N].
  - rewrite Ascii.eqb_refl. reflexivity.
  - apply Ascii.eqb_neq in N. rewrite N. reflexivity.
Qed.

Lemma prefix_empty (s : string) : prefix "" s = true.
Proof. destruct s; reflexivity. Qed.

Lemma contains_cons (p : string) (c : ascii) (s : string) :
  contains p (String c s) = prefix p (String c s) || contains p s.
Proof. reflexivity. Qed.

(** A part without the two characters [" -"] ends at the separator
    that follows it. *)
Lemma split_sep_app (a rest : string) :
  contains " -" a = false ->
  split_sep (a ++ " - " ++ rest) = a :: split_sep rest.
Proof.
  induction a as [|c t IH]; intros H.
  - reflexivity.
  - rewrite contains_cons in H. apply orb_false_iff in H. destruct H as [Hp Ht].
    specialize (IH Ht).
    destruct t as [|c2 t2].
    + change (split_sep (String c (String " " (String "-" (String " " rest))))
              = String c "" :: split_sep rest).
      rewrite split_sep_three.
      replace (is_sep c " " "-") with false
        by (unfold is_sep; rewrite andb_false_r; reflexivity).
      change (split_sep (String " " (String "-" (String " " rest))))
        with ("" :: split_sep rest). reflexivity.
    + assert (Hne : exists c3 r, (t2 ++ " - " ++ rest) = String c3 r).
      { destruct t2; simpl; eauto. }
      destruct Hne as (c3 & r & Er).
      change (split_sep (String c (String c2 (t2 ++ " - " ++ rest)))
              = String c (String c2 t2) :: split_sep rest).
      change (split_sep (String c2 (t2 ++ " - " ++ rest)) = String c2 t2 :: split_sep rest) in IH.
      rewrite Er in *. rewrite split_sep_three.
      destruct (is_sep c c2 c3) eqn:E.
      * apply is_sep_true in E. destruct E as (-> & -> & _).
        rewrite !prefix_cons, prefix_empty in Hp. simpl in Hp. discriminate.
      * rewrite IH. reflexivity.
Qed.

Lemma ends_with_cons (suffix : string) (c : ascii) (s : string) :
  ends_with suffix (String c s) = (String c s =? suffix) || ends_with suffix s.
Proof. reflexivity. Qed.

(** A part that does not hold the separator and does not end with
    [" -"] ends at the separator that follows it. *)
Lemma split_sep_app_tight (a rest : string) :
  contains " - " a = false -> ends_with " -" a = false ->
  split_sep (a ++ " - " ++ rest) = a :: split_sep rest.
Proof.
  induction a as [|c t IH]; intros Hc He.
  - reflexivity.
  - rewrite contains_cons in Hc. apply orb_false_iff in Hc. destruct Hc as [Hp Ht].
    rewrite ends_with_cons in He. apply orb_false_iff in He. destruct He as [Heq Het].
    specialize (IH Ht Het).
    destruct t as [|c2 t2].
    + change (split_sep (String c (String " " (String "-" (String " " rest))))
              = String c "" :: split_sep rest).
      rewrite split_sep_three.
      replace (is_sep c " " "-") with false
        by (unfold is_sep; rewrite andb_false_r; reflexivity).
      change (split_sep (String " " (String "-" (String " " rest))))
        with ("" :: split_sep rest). reflexivity.
    + assert (Hne : exists c3 r, (t2 ++ " - " ++ rest) = String c3 r).
      { destruct t2; simpl; eauto. }
      destruct Hne as (c3 & r & Er).
      change (split_sep (String c (String c2 (t2 ++ " - " ++ rest)))
              = String c (String c2 t2) :: split_sep rest).
      change (split_sep (String c2 (t2 ++ " - " ++ rest)) = String c2 t2 :: split_sep rest) in IH.
      rewrite Er in *. rewrite split_sep_three.
      destruct (is_sep c c2 c3) eqn:E.
      * exfalso. apply is_sep_true in E. destruct E as (-> & -> & ->).
        destruct t2 as [|d t3].
        -- discriminate Heq.
        -- simpl in Er. injection Er as -> _.
           rewrite !prefix_cons, prefix_empty in Hp. discriminate Hp.
      * rewrite IH. reflexivity.
Qed.

(** A string without the separator is one part. *)
Lemma split_sep_single (r : string) :
  contains " - " r = false -> split_sep r = [r].
Proof.
  induction r as [|c1 t IH]; intros H; [reflexivity|].
  rewrite contains_cons in H. apply orb_false_iff in H. destruct H as [Hp Ht].
  specialize (IH Ht).
  destruct t as [|c2 [|c3 rest]]; try reflexivity.
  rewrite split_sep_three.
  destruct (is_sep c1 c2 c3) eqn:E.
  - apply is_sep_true in E. destruct E as (-> & -> & ->).
    rewrite !prefix_cons, prefix_empty in Hp. simpl in Hp. discriminate.
  - rewrite IH. reflexivity.
Qed.

(** A string with more than one part is not white space only. *)
Lemma split_sep_strip (s : string) (p q : string) (ps : list string) :
  split_sep s = p :: q :: ps -> strip s <> "".
Proof.
  intros H E. apply strip_empty, all_space_single in E. congruence.
Qed.

Lemma str_in_In (s : string) (l : list pyval) : str_in s l = true <-> In (VStr s) l.
Proof.
  unfold str_in. rewrite existsb_exists. split.
  - intros (v & Hin & Hv). destruct v; try discriminate.
    apply String.eqb_eq in Hv. subst. exact Hin.
  - intros Hin. exists (VStr s). split; [exact Hin | apply String.eqb_refl].
Qed.

End StringFacts.

(** ** Facts about the steps of [process_ticket] *)

Section StepFacts.

Variable text_blob : string.

Lemma match_no_match (rca_list : list pyval) (st : rca_state) :
  no_catalog_match text_blob rca_list = true ->
  match_existing_rca text_blob rca_list st = Ok st.
Proof.
  induction rca_list as [|v rest IH]; simpl; [reflexivity|].
  rewrite andb_true_iff. intros [Hv Hrest].
  destruct v as [rca| | |]; try discriminate.
  apply negb_true_iff in Hv. rewrite Hv. auto.
Qed.

Lemma match_cases (rca_list : list pyval) (st st' : rca_state) :
  match_existing_rca text_blob rca_list st = Ok st' ->
  st' = st \/
  exists rca, In (VStr rca) rca_list /\ contains (lower rca) text_blob = true /\
              st' = (rca, 90%Z, "Matched existing RCA: " ++ rca).
Proof.
  induction rca_list as [|v rest IH]; simpl.
  - intros H. left. congruence.
  - destruct v as [rca| | |]; try discriminate.
    destruct (contains (lower rca) text_blob) eqn:E.
    + intros H. right. exists rca. split; [auto|]. split; [exact E | congruence].
    + intros H. destruct (IH H) as [->|(r & Hin & Hc & ->)]; [left; reflexivity|].
      right. exists r. auto.
Qed.

Lemma match_total (rca_list : list pyval) (st : rca_state) :
  catalog_of_phrases rca_list = true ->
  exists st', match_existing_rca text_blob rca_list st = Ok st'.
Proof.
  induction rca_list as [|v rest IH]; simpl; [eauto|].
  rewrite andb_true_iff. intros [Hv Hrest].
  destruct v as [rca| | |]; try discriminate.
  destruct (contains (lower rca) text_blob); eauto.
Qed.

Lemma new_rca_nonempty (notes : pyval) :
  fst (fst (new_rca_from_notes notes)) <> "".
Proof.
  unfold new_rca_from_notes. cbn [fst].
  apply take_nonempty.
  destruct (strip (str notes) =? "") eqn:E; cbn [orb].
  - discriminate.
  - destruct (lower (strip (str notes)) =? "nan"); [discriminate|].
    apply String.eqb_neq. exact E.
Qed.

(** What the resolution step can return: a phrase made from the work
    notes with 60, or the first matching phrase of the catalog with 90. *)
Lemma resolve_cases (rca_list : list pyval) (notes : pyval) (st : rca_state) :
  resolve_rca text_blob rca_list notes = Ok st ->
  st = new_rca_from_notes notes \/
  exists rca, In (VStr rca) rca_list /\ contains (lower rca) text_blob = true /\
              rca <> "Under analysis" /\
              st = (rca, 90%Z, "Matched existing RCA: " ++ rca).
Proof.
  unfold resolve_rca.
  destruct (match_existing_rca text_blob rca_list _) as [[[m c] r]|e] eqn:E;
    cbn [bind]; [|discriminate].
  destruct (m =? "Under analysis") eqn:Em; intros H; injection H as <-.
  - left. reflexivity.
  - apply match_cases in E. destruct E as [E|(rca & Hin & Hc & E)].
    + injection E as -> -> ->. rewrite String.eqb_refl in Em. discriminate.
    + injection E as -> -> ->. right. exists rca. repeat split; auto.
      apply String.eqb_neq. exact Em.
Qed.

Lemma resolve_no_match (rca_list : list pyval) (notes : pyval) :
  no_catalog_match text_blob rca_list = true ->
  resolve_rca text_blob rca_list notes = Ok (new_rca_from_notes notes).
Proof.
  intros H. unfold resolve_rca. rewrite (match_no_match _ _ H). reflexivity.
Qed.

End StepFacts.

Lemma is_valid_cause_parts (cause : string) (offs cats : list pyval) (a b c : string) :
  split_sep cause = [a; b; c] ->
  is_valid_cause (VStr cause) offs cats =
  str_in (strip a) offs && str_in (strip b) cats && negb (strip c =? "").
Proof.
  intros H. unfold is_valid_cause. simpl isna. simpl str.
  pose proof (split_sep_strip _ _ _ _ H) as Hne.
  apply String.eqb_neq in Hne. rewrite Hne, H. simpl.
  destruct (str_in (strip a) offs), (str_in (strip b) cats), (strip c =? ""); reflexivity.
Qed.

Lemma is_valid_cause_no_categories (cause : pyval) (offs : list pyval) :
  is_valid_cause cause offs [] = false.
Proof.
  unfold is_valid_cause.
  destruct (isna cause || (strip (str cause) =? "")); [reflexivity|].
  destruct (map strip (split_sep (str cause))) as [|a [|b [|c [|d l]]]]; try reflexivity.
  destruct (negb (str_in a offs)); reflexivity.
Qed.

(** ** The claims *)

(** C1, as stated, fails: the service offering ["Email - Exchange"] is
    a member of the service offerings, the composed category is a
    canonical category and the composed root cause is not empty, and
    yet the composed cause, which splits into four parts, is judged
    invalid. *)
Lemma composed_cause_separator_in_service :
  process_ticket exchange_ticket [] [VStr "Email - Exchange"] [VStr "Configuration issue"]
    = Ok (Some "Email - Exchange - Configuration issue - Resolved after configuration check",
          Some 70%Z, "AI fallback used") /\
  derive_cause exchange_ticket [] [VStr "Configuration issue"]
    = Ok (VStr "Configuration issue",
          ("Resolved after configuration check", 70%Z, "AI fallback used")) /\
  str_in "Email - Exchange" [VStr "Email - Exchange"] = true /\
  str_in "Configuration issue" [VStr "Configuration issue"] = true /\
  strip "Resolved after configuration check" <> "" /\
  is_valid_cause
    (VStr "Email - Exchange - Configuration issue - Resolved after configuration check")
    [VStr "Email - Exchange"] [VStr "Configuration issue"] = false.
Proof.
  repeat split; try reflexivity. vm_compute. discriminate.
Qed.

(** The two other ways in which the claim of C1 fails.  A service
    offering that ends with [" -"] runs into the separator behind it,
    and a service offering with white space at an end is trimmed before
    it is looked up: both are members of the service offerings, the
    category is canonical and the root cause is not empty, and the
    composed cause is invalid. *)
Example composed_cause_other_failures :
  split_sep "VPN - - Configuration issue - No fault found"
    = ["VPN"; "- Configuration issue"; "No fault found"] /\
  is_valid_cause (VStr "VPN - - Configuration issue - No fault found")
    [VStr "VPN -"] [VStr "Configuration issue"] = false /\
  is_valid_cause (VStr " Laptop - Configuration issue - No fault found")
    [VStr " Laptop"] [VStr "Configuration issue"] = false.
Proof. repeat split; reflexivity. Qed.

(** C1, amended: for every ticket that reaches composition and whose
    service offering is a text that is a member of the service
    offerings, and is one after trimming too, when neither the service
    offering nor the composed category holds [" - "] or ends with
    [" -"], the composed root cause does not hold [" - "], and the
    composed category is a canonical category exactly when its trimmed
    form is one, [is_valid_cause] on the composed cause is true if and
    only if the category is a canonical category and the root cause is
    not empty after trimming. *)
Theorem composed_cause_revalidation
    (row : ticket) (rca_list offs cats : list pyval)
    (svc : string) (cat : pyval) (rca : string) (conf : Z) (reason : string) :
  service_offering row = VStr svc ->
  is_valid_cause (existing_cause row) offs cats = false ->
  derive_cause row rca_list cats = Ok (cat, (rca, conf, reason)) ->
  str_in svc offs = true ->
  str_in (strip svc) offs = true ->
  contains " - " svc = false -> ends_with " -" svc = false ->
  str_in (strip (str cat)) cats = str_in (str cat) cats ->
  contains " - " (str cat) = false -> ends_with " -" (str cat) = false ->
  contains " - " rca = false ->
  process_ticket row rca_list offs cats
    = Ok (Some (compose_cause (VStr svc) cat rca), Some conf, reason) /\
  (is_valid_cause (VStr (compose_cause (VStr svc) cat rca)) offs cats = true <->
   str_in (str cat) cats = true /\ strip rca <> "").
Proof.
  intros Hsvc Hskip Hder _ Hin Hs1 Hs2 Hcat Hc1 Hc2 Hr.
  split.
  - unfold process_ticket. rewrite Hskip, Hder, Hsvc. reflexivity.
  - assert (Hsplit : split_sep (compose_cause (VStr svc) cat rca) = [svc; str cat; rca]).
    { unfold compose_cause. cbn [str].
      rewrite (split_sep_app_tight svc _ Hs1 Hs2),
              (split_sep_app_tight (str cat) _ Hc1 Hc2),
              (split_sep_single rca Hr). reflexivity. }
    rewrite (is_valid_cause_parts _ offs cats _ _ _ Hsplit), Hin, Hcat.
    cbn [andb]. rewrite andb_true_iff, negb_true_iff, String.eqb_neq. tauto.
Qed.

Lemma composed_cause_revalidation_witness :
  process_ticket sign_in_ticket [] [VStr "Laptop"] [VStr "Sign -in issue"]
    = Ok (Some (compose_cause (VStr "Laptop") (VStr "Sign -in issue")
                  "Root cause under investigation"),
          Some 70%Z, "AI fallback used") /\
  (is_valid_cause
     (VStr (compose_cause (VStr "Laptop") (VStr "Sign -in issue")
              "Root cause under investigation"))
     [VStr "Laptop"] [VStr "Sign -in issue"] = true <->
   str_in (str (VStr "Sign -in issue")) [VStr "Sign -in issue"] = true /\
   strip "Root cause under investigation" <> "").
Proof.
  apply (composed_cause_revalidation sign_in_ticket [] [VStr "Laptop"]
           [VStr "Sign -in issue"] "Laptop" (VStr "Sign -in issue")
           "Root cause under investigation" 70%Z "AI fallback used");
    reflexivity.
Defined.

(** C2: for every ticket that is not skipped, when the resolution step
    ends with a confidence below 75, [process_ticket] returns the
    confidence 70 and the reason ["AI fallback used"], and the category
    and the root cause of the composed cause are the pair that
    [ai_fallback_suggest] returns; the rule-based category and the
    phrase of the resolution step are dropped. *)
Theorem fallback_override
    (row : ticket) (rca_list offs cats : list pyval)
    (phrase : string) (conf : Z) (reason : string)
    (ai_category : pyval) (ai_rca : string) :
  is_valid_cause (existing_cause row) offs cats = false ->
  resolve_rca (text_blob_of row) rca_list (work_notes row) = Ok (phrase, conf, reason) ->
  (conf < 75)%Z ->
  ai_fallback_suggest (text_blob_of row) cats = Ok (ai_category, ai_rca) ->
  process_ticket row rca_list offs cats
    = Ok (Some (str (service_offering row) ++ " - " ++ str ai_category ++ " - " ++ ai_rca),
          Some 70%Z, "AI fallback used").
Proof.
  intros Hskip Hres Hlt Hai.
  unfold process_ticket, derive_cause. rewrite Hskip, Hres. cbn [bind].
  unfold apply_fallback. apply Z.ltb_lt in Hlt. rewrite Hlt, Hai. reflexivity.
Qed.

Lemma fallback_override_witness :
  process_ticket laptop_ticket [VStr "Disk full"] [VStr "Laptop"] [VStr "Hardware issue"]
    = Ok (Some (str (service_offering laptop_ticket) ++ " - " ++
                str (VStr "Configuration issue") ++ " - " ++
                "Resolved after configuration check"),
          Some 70%Z, "AI fallback used").
Proof.
  apply (fallback_override laptop_ticket [VStr "Disk full"] [VStr "Laptop"]
           [VStr "Hardware issue"] "issue resolved after password reset" 60%Z
           "New RCA created from work notes");
    reflexivity.
Defined.

(** C3: a missing description is not read as the empty text.  It puts
    the word ["nan"] into the text blob, and with a catalog phrase that
    occurs in that word the two tickets get different causes. *)
Theorem missing_cell_is_not_empty_text :
  text_blob_of jam_ticket_missing = "paper jam nan tray cleaned" /\
  text_blob_of jam_ticket_empty = "paper jam  tray cleaned" /\
  process_ticket jam_ticket_missing [VStr "nan"] [VStr "Printer"] [VStr "Hardware issue"]
    = Ok (Some "Printer - Configuration issue - nan", Some 90%Z,
          "Matched existing RCA: nan") /\
  process_ticket jam_ticket_empty [VStr "nan"] [VStr "Printer"] [VStr "Hardware issue"]
    = Ok (Some "Printer - Hardware issue - Root cause under investigation", Some 70%Z,
          "AI fallback used").
Proof. repeat split; reflexivity. Qed.

(** C4, as stated, fails: the service part [" Laptop "] of this cause
    carries white space that the reference entry ["Laptop"] does not
    have, the cause splits into three parts, and it is judged valid. *)
Lemma padded_service_part_is_valid :
  split_sep " Laptop  - Configuration issue - Password reset"
    = [" Laptop "; "Configuration issue"; "Password reset"] /\
  str_in " Laptop " [VStr "Laptop"] = false /\
  is_valid_cause (VStr " Laptop  - Configuration issue - Password reset")
    [VStr "Laptop"] [VStr "Configuration issue"] = true.
Proof. repeat split; reflexivity. Qed.

(** C4, amended: for every cause that splits on [" - "] into exactly
    three parts, [is_valid_cause] trims each part and then tests the
    trimmed service part against the service offerings, and the trimmed
    category part against the canonical categories, by exact,
    case-sensitive equality of the texts; the cause is valid exactly
    when both are members and the trimmed root cause is not empty. *)
Theorem validator_membership_after_trim
    (cause a b c : string) (offs cats : list pyval) :
  split_sep cause = [a; b; c] ->
  (is_valid_cause (VStr cause) offs cats = true <->
   In (VStr (strip a)) offs /\ In (VStr (strip b)) cats /\ strip c <> "").
Proof.
  intros H. rewrite (is_valid_cause_parts _ offs cats _ _ _ H).
  rewrite !andb_true_iff, negb_true_iff, String.eqb_neq, !str_in_In. tauto.
Qed.

Lemma validator_membership_after_trim_witness :
  is_valid_cause (VStr " Laptop  - Configuration issue - Password reset")
    [VStr "Laptop"] [VStr "Configuration issue"] = true <->
  In (VStr (strip " Laptop ")) [VStr "Laptop"] /\
  In (VStr (strip "Configuration issue")) [VStr "Configuration issue"] /\
  strip "Password reset" <> "".
Proof.
  apply (validator_membership_after_trim
           " Laptop  - Configuration issue - Password reset"
           " Laptop " "Configuration issue" "Password reset").
  reflexivity.
Defined.

(** C5, as stated, fails on a degenerate catalog: an empty phrase
    matches every text and becomes the root cause, and an entry that is
    not a str makes the step raise. *)
Lemma resolve_degenerate_catalog :
  resolve_rca "printer offline" [VStr ""] (VStr "restarted spooler")
    = Ok ("", 90%Z, "Matched existing RCA: ") /\
  resolve_rca "printer offline" [VNaN] (VStr "restarted spooler")
    = Raise AttributeError.
Proof. split; reflexivity. Qed.

(** C5, amended: for every text blob and work-notes value, and every
    catalog whose entries are all non-empty strs, the resolution step
    returns without error and its phrase is not empty; when no catalog
    phrase matches and the trimmed work notes are empty or ["nan"] in
    any case, the phrase is ["Root cause under investigation"]. *)
Theorem resolve_total_nonempty
    (text_blob : string) (rca_list : list pyval) (notes : pyval) :
  catalog_of_phrases rca_list = true ->
  exists phrase conf reason,
    resolve_rca text_blob rca_list notes = Ok (phrase, conf, reason) /\
    phrase <> "" /\
    (no_catalog_match text_blob rca_list = true ->
     strip (str notes) = "" \/ lower (strip (str notes)) = "nan" ->
     phrase = "Root cause under investigation").
Proof.
  intros Hcat.
  destruct (match_total text_blob rca_list
              ("Under analysis", 50%Z, "Rule-based default") Hcat) as [[[m c] r] Hm].
  assert (Hres : exists st, resolve_rca text_blob rca_list notes = Ok st).
  { unfold resolve_rca. rewrite Hm. cbn [bind].
    destruct (m =? "Under analysis"); eauto. }
  destruct Hres as [[[phrase conf] reason] Hres].
  exists phrase, conf, reason. split; [exact Hres|]. split.
  - destruct (resolve_cases _ _ _ _ Hres) as [E|(rca & Hin & _ & _ & E)].
    + pose proof (new_rca_nonempty notes) as Hne. rewrite <- E in Hne. exact Hne.
    + injection E as -> _ _. intros ->.
      unfold catalog_of_phrases in Hcat. rewrite forallb_forall in Hcat.
      specialize (Hcat _ Hin). discriminate.
  - intros Hno Hdeg. rewrite (resolve_no_match _ _ notes Hno) in Hres.
    injection Hres as Hres. unfold new_rca_from_notes in Hres.
    assert (Hc : (strip (str notes) =? "") || (lower (strip (str notes)) =? "nan") = true).
    { apply orb_true_iff. rewrite !String.eqb_eq. exact Hdeg. }
    rewrite Hc in Hres. rewrite <- Hres. reflexivity.
Qed.

Lemma resolve_total_nonempty_witness :
  exists phrase conf reason,
    resolve_rca "printer offline  nan" [VStr "Disk full"] VNaN = Ok (phrase, conf, reason) /\
    phrase <> "" /\
    (no_catalog_match "printer offline  nan" [VStr "Disk full"] = true ->
     strip (str VNaN) = "" \/ lower (strip (str VNaN)) = "nan" ->
     phrase = "Root cause under investigation").
Proof.
  apply (resolve_total_nonempty "printer offline  nan" [VStr "Disk full"] VNaN).
  reflexivity.
Defined.

(** C6, as stated, fails in the reason: for a ticket whose existing
    cause is valid, the reason that [process_ticket] returns is the
    text ["Skipped (already valid)"], not ["already valid"]. *)
Lemma skip_reason_text :
  is_valid_cause (existing_cause valid_ticket) [VStr "Laptop"] [VStr "Configuration issue"]
    = true /\
  process_ticket valid_ticket [] [VStr "Laptop"] [VStr "Configuration issue"]
    = Ok (None, None, "Skipped (already valid)") /\
  "Skipped (already valid)" <> "already valid".
Proof. repeat split; try reflexivity. discriminate. Qed.

(** C6, amended: for every ticket whose existing cause [is_valid_cause]
    judges valid against the current reference lists, [process_ticket]
    returns no cause, no confidence and the reason
    ["Skipped (already valid)"], and the caller leaves the row as it
    is; the caller changes a row only for an outcome that has a cause. *)
Theorem skip_outcome_and_frame (row : ticket) (rca_list offs cats : list pyval) :
  is_valid_cause (existing_cause row) offs cats = true ->
  process_ticket row rca_list offs cats = Ok (None, None, "Skipped (already valid)") /\
  update_ticket row rca_list offs cats = Ok (row, (None, None, "Skipped (already valid)")) /\
  (forall out : outcome, write_back row out <> row -> exists c, fst (fst out) = Some c).
Proof.
  intros Hvalid.
  assert (Hp : process_ticket row rca_list offs cats
               = Ok (None, None, "Skipped (already valid)")).
  { unfold process_ticket. rewrite Hvalid. reflexivity. }
  split; [exact Hp|]. split.
  - unfold update_ticket. rewrite Hp. reflexivity.
  - intros [[cause conf] reason] Hw. destruct cause as [c|].
    + exists c. reflexivity.
    + exfalso. apply Hw. reflexivity.
Qed.

Lemma skip_outcome_and_frame_witness :
  process_ticket valid_ticket [] [VStr "Laptop"] [VStr "Configuration issue"]
    = Ok (None, None, "Skipped (already valid)") /\
  update_ticket valid_ticket [] [VStr "Laptop"] [VStr "Configuration issue"]
    = Ok (valid_ticket, (None, None, "Skipped (already valid)")) /\
  (forall out : outcome,
     write_back valid_ticket out <> valid_ticket -> exists c, fst (fst out) = Some c).
Proof.
  apply (skip_outcome_and_frame valid_ticket [] [VStr "Laptop"] [VStr "Configuration issue"]).
  reflexivity.
Defined.

(** C7: with an empty list of canonical categories, in the default
    branch (the text holds none of ["resolved"], ["fixed"], ["working"],
    ["no issue"]) [ai_fallback_suggest] raises, and [process_ticket]
    passes the error on to its caller instead of returning a cause;
    with a list that is not empty [ai_fallback_suggest] returns a
    pair and raises nothing. *)
Theorem empty_categories_error (text_blob : string) :
  default_branch text_blob = true ->
  ai_fallback_suggest text_blob [] = Raise IndexError /\
  (forall (row : ticket) (rca_list offs : list pyval)
          (phrase : string) (conf : Z) (reason : string),
     text_blob_of row = text_blob ->
     resolve_rca text_blob rca_list (work_notes row) = Ok (phrase, conf, reason) ->
     (conf < 75)%Z ->
     process_ticket row rca_list offs [] = Raise IndexError) /\
  (forall cats : list pyval, cats <> [] ->
     exists category rca, ai_fallback_suggest text_blob cats = Ok (category, rca)).
Proof.
  unfold default_branch. rewrite andb_true_iff, !negb_true_iff. intros [H1 H2].
  assert (Hai : ai_fallback_suggest text_blob [] = Raise IndexError).
  { unfold ai_fallback_suggest. rewrite H1, H2. reflexivity. }
  split; [exact Hai|]. split.
  - intros row rca_list offs phrase conf reason Hblob Hres Hlt.
    unfold process_ticket, derive_cause.
    rewrite is_valid_cause_no_categories, Hblob, Hres. cbn [bind].
    unfold apply_fallback. apply Z.ltb_lt in Hlt. rewrite Hlt, Hai. reflexivity.
  - intros cats Hne. unfold ai_fallback_suggest. rewrite H1, H2.
    destruct cats as [|first rest]; [congruence|]. eauto.
Qed.

Lemma empty_categories_error_witness :
  ai_fallback_suggest "paper jam  tray cleaned" [] = Raise IndexError /\
  (forall (row : ticket) (rca_list offs : list pyval)
          (phrase : string) (conf : Z) (reason : string),
     text_blob_of row = "paper jam  tray cleaned" ->
     resolve_rca "paper jam  tray cleaned" rca_list (work_notes row)
       = Ok (phrase, conf, reason) ->
     (conf < 75)%Z ->
     process_ticket row rca_list offs [] = Raise IndexError) /\
  (forall cats : list pyval, cats <> [] ->
     exists category rca,
       ai_fallback_suggest "paper jam  tray cleaned" cats = Ok (category, rca)).
Proof.
  apply (empty_categories_error "paper jam  tray cleaned"). reflexivity.
Defined.

Example empty_categories_run :
  process_ticket jam_ticket_empty [VStr "Disk full"] [VStr "Printer"] [] = Raise IndexError.
Proof. reflexivity. Qed.

(** C8: the end-to-end example.  With service offering ["Laptop"], an
    empty short description, the description
    ["Unable to login, access denied"], the work notes
    ["issue resolved after password reset"], an empty existing cause and
    a catalog of which no phrase matches, [process_ticket] returns the
    cause ["Laptop - Configuration issue - Resolved after configuration check"]
    with confidence 70 and reason ["AI fallback used"]; the rule-based
    category of the text is ["Access issue"], and it is overridden. *)
Theorem end_to_end_example (number : pyval) (rca_list offs cats : list pyval) :
  no_catalog_match (text_blob_of (laptop_row number)) rca_list = true ->
  process_ticket (laptop_row number) rca_list offs cats
    = Ok (Some "Laptop - Configuration issue - Resolved after configuration check",
          Some 70%Z, "AI fallback used") /\
  rule_category (text_blob_of (laptop_row number)) = "Access issue".
Proof.
  intros Hno. split; [|reflexivity].
  unfold process_ticket, derive_cause.
  rewrite (resolve_no_match _ _ (work_notes (laptop_row number)) Hno). reflexivity.
Qed.

Lemma end_to_end_example_witness :
  process_ticket laptop_ticket [VStr "Disk full"; VStr "Cable unplugged"]
    [VStr "Laptop"] [VStr "Access issue"; VStr "Configuration issue"]
    = Ok (Some "Laptop - Configuration issue - Resolved after configuration check",
          Some 70%Z, "AI fallback used") /\
  rule_category (text_blob_of laptop_ticket) = "Access issue".
Proof.
  apply (end_to_end_example (VStr "INC001") [VStr "Disk full"; VStr "Cable unplugged"]
           [VStr "Laptop"] [VStr "Access issue"; VStr "Configuration issue"]).
  reflexivity.
Defined.

(** C9, as stated, fails: these work notes have 80 characters and no
    catalog phrase matches, but the phrase has the 45 characters that
    are left after trimming, not 50. *)
Lemma padded_notes_phrase :
  String.length padded_notes = 80 /\
  no_catalog_match (lower ("switch down" ++ " " ++ "" ++ " " ++ padded_notes)) [] = true /\
  resolve_rca (lower ("switch down" ++ " " ++ "" ++ " " ++ padded_notes)) []
    (VStr padded_notes)
    = Ok ("replaced the failed network switch in rack 12", 60%Z,
          "New RCA created from work notes") /\
  String.length "replaced the failed network switch in rack 12" = 45.
Proof. repeat split; reflexivity. Qed.

(** C9, amended: for every work-notes string of 80 characters of which
    at least 50 are left after trimming, when no catalog phrase matches
    the text blob, the phrase of the resolution step has exactly 50
    characters and is the first 50 characters of the trimmed work
    notes. *)
Theorem work_notes_truncation
    (text_blob : string) (rca_list : list pyval) (notes : string) :
  String.length notes = 80 ->
  50 <= String.length (strip notes) ->
  no_catalog_match text_blob rca_list = true ->
  exists phrase,
    resolve_rca text_blob rca_list (VStr notes)
      = Ok (phrase, 60%Z, "New RCA created from work notes") /\
    String.length phrase = 50 /\
    phrase = take 50 (strip notes).
Proof.
  intros _ Hlen Hno. exists (take 50 (strip notes)).
  split; [|split; [|reflexivity]].
  - rewrite (resolve_no_match _ _ (VStr notes) Hno).
    unfold new_rca_from_notes. cbn [str].
    assert (E1 : (strip notes =? "") = false).
    { apply String.eqb_neq. intros E. rewrite E in Hlen. simpl in Hlen. lia. }
    assert (E2 : (lower (strip notes) =? "nan") = false).
    { apply String.eqb_neq. intros E.
      pose proof (lower_length (strip notes)) as Hl. rewrite E in Hl. simpl in Hl. lia. }
    rewrite E1, E2. reflexivity.
  - rewrite take_length. lia.
Qed.

Lemma work_notes_truncation_witness :
  exists phrase,
    resolve_rca (lower ("switch down" ++ " " ++ "" ++ " " ++ long_notes))
      [VStr "Disk full"] (VStr long_notes)
      = Ok (phrase, 60%Z, "New RCA created from work notes") /\
    String.length phrase = 50 /\
    phrase = take 50 (strip long_notes).
Proof.
  apply (work_notes_truncation
           (lower ("switch down" ++ " " ++ "" ++ " " ++ long_notes))
           [VStr "Disk full"] long_notes).
  - reflexivity.
  - vm_compute. lia.
  - reflexivity.
Defined.

(** C10: for every ticket whose outcome has a cause, the confidence
    that [process_ticket] returns is 70 or 90; the scores 50 and 60 of
    the resolution step are below 75 and are replaced by the 70 of the
    fallback, so the reasons ["Rule-based default"] and
    ["New RCA created from work notes"] are never returned. *)
Theorem final_confidence
    (row : ticket) (rca_list offs cats : list pyval)
    (cause : string) (conf : option Z) (reason : string) :
  process_ticket row rca_list offs cats = Ok (Some cause, conf, reason) ->
  (conf = Some 70%Z \/ conf = Some 90%Z) /\
  reason <> "Rule-based default" /\
  reason <> "New RCA created from work notes".
Proof.
  unfold process_ticket, derive_cause.
  destruct (is_valid_cause (existing_cause row) offs cats); [discriminate|].
  destruct (resolve_rca (text_blob_of row) rca_list (work_notes row))
    as [st|e] eqn:Hres; cbn [bind]; [|discriminate].
  destruct (resolve_cases _ _ _ _ Hres) as [->|(rca & _ & _ & _ & ->)].
  - unfold new_rca_from_notes, apply_fallback.
    change (60 <? 75)%Z with true. cbv iota.
    destruct (ai_fallback_suggest (text_blob_of row) cats) as [[c r]|e];
      cbn [bind]; [|discriminate].
    intros H. injection H as _ <- <-.
    repeat split; [left; reflexivity | discriminate | discriminate].
  - unfold apply_fallback. change (90 <? 75)%Z with false. cbv iota. cbn [bind].
    intros H. injection H as _ <- <-.
    repeat split; [right; reflexivity | simpl; discriminate | simpl; discriminate].
Qed.

Lemma final_confidence_witness :
  (Some 70%Z = Some 70%Z \/ Some 70%Z = Some 90%Z) /\
  "AI fallback used" <> "Rule-based default" /\
  "AI fallback used" <> "New RCA created from work notes".
Proof.
  apply (final_confidence laptop_ticket [VStr "Disk full"] [VStr "Laptop"]
           [VStr "Configuration issue"]
           "Laptop - Configuration issue - Resolved after configuration check"
           (Some 70%Z) "AI fallback used").
  reflexivity.
Defined.

Example matched_confidence :
  process_ticket laptop_ticket [VStr "Disk full"; VStr "Password reset"] [VStr "Laptop"]
    [VStr "Configuration issue"]
  = Ok (Some "Laptop - Access issue - Password reset", Some 90%Z,
        "Matched existing RCA: Password reset").
Proof. reflexivity. Qed.

(** ** Further facts about texts *)

Lemma lower_app (a b : string) : lower (a ++ b) = lower a ++ lower b.
Proof. induction a as [|c t IH]; simpl; congruence. Qed.

Lemma prefix_app (w a b : string) : prefix w a = true -> prefix w (a ++ b) = true.
Proof.
  revert a; induction w as [|c w IH]; intros a H.
  - apply prefix_empty.
  - destruct a as [|d a]; [discriminate|].
    change (prefix (String c w) (String d (a ++ b)) = true).
    rewrite prefix_cons in *. apply andb_true_iff in H. destruct H as [H1 H2].
    rewrite H1, (IH _ H2). reflexivity.
Qed.

Lemma contains_app_l (w a b : string) : contains w a = true -> contains w (a ++ b) = true.
Proof.
  induction a as [|c t IH]; intros H.
  - destruct w; [|discriminate]. destruct b; reflexivity.
  - change (contains w (String c (t ++ b)) = true).
    rewrite contains_cons in *. apply orb_true_iff in H. destruct H as [H|H].
    + change (String c (t ++ b)) with (String c t ++ b).
      rewrite (prefix_app _ _ _ H). reflexivity.
    + rewrite (IH H). apply orb_true_r.
Qed.

Lemma contains_app_r (w a b : string) : contains w b = true -> contains w (a ++ b) = true.
Proof.
  intros H. induction a as [|c t IH]; [exact H|].
  change (contains w (String c (t ++ b)) = true).
  rewrite contains_cons, IH. apply orb_true_r.
Qed.

Lemma lstrip_all_space_empty (s : string) : all_space s = true -> lstrip s = "".
Proof.
  induction s as [|c t IH]; simpl; auto.
  intros H. apply andb_true_iff in H. destruct H as [-> Ht]. auto.
Qed.

Lemma all_space_strip (s : string) : all_space s = true -> strip s = "".
Proof. intros H. unfold strip. rewrite (lstrip_all_space_empty _ H). reflexivity. Qed.

Lemma split_sep_not_nil (s : string) : split_sep s <> [].
Proof.
  destruct s as [|c1 [|c2 [|c3 rest]]]; try discriminate.
  rewrite split_sep_three. destruct (is_sep c1 c2 c3); [discriminate|].
  unfold push_char. destruct (split_sep _); discriminate.
Qed.

Lemma concat_push_char (c : ascii) (parts : list string) :
  parts <> [] -> String.concat " - " (push_char c parts) = String c (String.concat " - " parts).
Proof. destruct parts as [|p [|q ps]]; [congruence | reflexivity | reflexivity]. Qed.

Lemma split_join_bounded (n : nat) (s : string) :
  String.length s <= n -> String.concat " - " (split_sep s) = s.
Proof.
  revert s; induction n as [|n IH]; intros s Hlen.
  - destruct s; [reflexivity | simpl in Hlen; lia].
  - destruct s as [|c1 [|c2 [|c3 rest]]]; try reflexivity.
    rewrite split_sep_three. destruct (is_sep c1 c2 c3) eqn:E.
    + apply is_sep_true in E. destruct E as (-> & -> & ->).
      assert (Hr : String.concat " - " (split_sep rest) = rest)
        by (apply IH; simpl in Hlen; lia).
      destruct (split_sep rest) as [|x xs] eqn:Ex; [exfalso; eapply split_sep_not_nil; eauto|].
      change (String.concat " - " ("" :: x :: xs)) with ("" ++ " - " ++ String.concat " - " (x :: xs)).
      rewrite Hr. reflexivity.
    + rewrite concat_push_char by apply split_sep_not_nil.
      rewrite IH; [reflexivity | simpl in *; lia].
Qed.

(** ** Properties of [is_valid_cause] *)

(** X1: joining the parts of [split(" - ")] with the separator gives
    the text back, so the three parts that [is_valid_cause] reads are
    all of the cause. *)
Theorem split_join_roundtrip (s : string) : String.concat " - " (split_sep s) = s.
Proof. apply (split_join_bounded (String.length s)). lia. Qed.

(** X2: a missing cause, and a cause that is empty or white space
    only, is never valid, whatever the reference lists hold. *)
Theorem blank_cause_invalid (cause : pyval) (offs cats : list pyval) :
  isna cause = true \/ all_space (str cause) = true ->
  is_valid_cause cause offs cats = false.
Proof.
  intros [H|H]; unfold is_valid_cause.
  - rewrite H. reflexivity.
  - rewrite (all_space_strip _ H). rewrite orb_true_r. reflexivity.
Qed.

Lemma blank_cause_invalid_witness :
  is_valid_cause (VStr "   ") [VStr ""; VStr "Laptop"] [VStr ""] = false.
Proof. apply blank_cause_invalid. right. reflexivity. Defined.

(** X3: a cause that is valid stays valid when entries are added to
    the service offerings or to the canonical categories. *)
Theorem valid_cause_monotone (cause : pyval) (offs cats offs' cats' : list pyval) :
  incl offs offs' -> incl cats cats' ->
  is_valid_cause cause offs cats = true ->
  is_valid_cause cause offs' cats' = true.
Proof.
  intros Ho Hc. unfold is_valid_cause.
  destruct (isna cause || (strip (str cause) =? "")); [discriminate|].
  destruct (map strip (split_sep (str cause))) as [|a [|b [|c [|d l]]]]; try discriminate.
  destruct (str_in a offs) eqn:Ea; [|discriminate].
  destruct (str_in b cats) eqn:Eb; [|discriminate].
  apply str_in_In in Ea. apply str_in_In in Eb.
  apply Ho, str_in_In in Ea. apply Hc, str_in_In in Eb.
  rewrite Ea, Eb. auto.
Qed.

Lemma valid_cause_monotone_witness :
  is_valid_cause (existing_cause valid_ticket)
    [VStr "Printer"; VStr "Laptop"] [VStr "Access issue"; VStr "Configuration issue"] = true.
Proof.
  apply (valid_cause_monotone (existing_cause valid_ticket)
           [VStr "Laptop"] [VStr "Configuration issue"]).
  - intros x [<-|[]]. right. left. reflexivity.
  - intros x [<-|[]]. right. left. reflexivity.
  - reflexivity.
Defined.

(** ** Properties of the steps of [process_ticket] *)

Lemma text_blob_parts (row : ticket) :
  text_blob_of row =
  lower (str (short_description row)) ++ " " ++
  lower (str (description row)) ++ " " ++
  lower (str (work_notes row)).
Proof. unfold text_blob_of. rewrite !lower_app. reflexivity. Qed.

Lemma any_in_intro (w : string) (words : list string) (text : string) :
  In w words -> contains w text = true -> any_in words text = true.
Proof. intros Hin Hc. unfold any_in. apply existsb_exists. eauto. Qed.

(** X4: the first keyword rule has priority and reads all three
    free-text cells without regard to case: when the lower-cased short
    description, description or work notes hold ["login"], ["access"]
    or ["unauthorized"], also inside a longer word, the rule-based
    category is ["Access issue"], whatever else the text holds. *)
Theorem access_keyword_wins (row : ticket) (w : string) :
  In w ["login"; "access"; "unauthorized"] ->
  contains w (lower (str (short_description row))) = true \/
  contains w (lower (str (description row))) = true \/
  contains w (lower (str (work_notes row))) = true ->
  rule_category (text_blob_of row) = "Access issue".
Proof.
  intros Hw Hc.
  assert (Hb : contains w (text_blob_of row) = true).
  { rewrite text_blob_parts. destruct Hc as [H|[H|H]].
    - apply contains_app_l, H.
    - apply contains_app_r, contains_app_r, contains_app_l, H.
    - do 4 apply contains_app_r. exact H. }
  unfold rule_category. rewrite (any_in_intro _ _ _ Hw Hb). reflexivity.
Qed.

Lemma access_keyword_wins_witness :
  rule_category
    (text_blob_of (mkTicket (VStr "INC005") (VStr "VPN") (VStr "Network offline")
                     (VStr "Screen black after UNAUTHORIZEDLY changed settings")
                     VNaN (VStr "")))
  = "Access issue".
Proof.
  apply (access_keyword_wins _ "unauthorized").
  - right. right. left. reflexivity.
  - right. left. reflexivity.
Defined.

Lemma match_skip_prefix (text_blob : string) (pre rest : list pyval) (st : rca_state) :
  no_catalog_match text_blob pre = true ->
  match_existing_rca text_blob (pre ++ rest) st = match_existing_rca text_blob rest st.
Proof.
  induction pre as [|v pre IH]; [reflexivity|].
  simpl. intros H. apply andb_true_iff in H. destruct H as [Hv Hpre].
  destruct v as [rca| | |]; try discriminate.
  apply negb_true_iff in Hv. rewrite Hv. auto.
Qed.

(** X5: the order of the catalog is a priority.  The first phrase
    whose lower-cased form occurs in the text is the root cause, with
    confidence 90; the entries behind it are not looked at, so a later
    match or a later entry that is not a str changes nothing. *)
Theorem first_match_wins
    (text_blob : string) (pre rest : list pyval) (phrase : string) (notes : pyval) :
  no_catalog_match text_blob pre = true ->
  contains (lower phrase) text_blob = true ->
  phrase <> "Under analysis" ->
  resolve_rca text_blob (pre ++ VStr phrase :: rest) notes
    = Ok (phrase, 90%Z, "Matched existing RCA: " ++ phrase).
Proof.
  intros Hpre Hc Hne. unfold resolve_rca.
  rewrite (match_skip_prefix _ _ _ _ Hpre).
  cbn [match_existing_rca]. rewrite Hc. cbn [bind].
  apply String.eqb_neq in Hne. rewrite Hne. reflexivity.
Qed.

Lemma first_match_wins_witness :
  resolve_rca "printer offline after password reset"
    ([VStr "Disk full"] ++ VStr "Password reset" :: [VStr "Printer offline"; VNaN])
    (VStr "restarted spooler")
  = Ok ("Password reset", 90%Z, "Matched existing RCA: " ++ "Password reset").
Proof.
  apply (first_match_wins "printer offline after password reset" [VStr "Disk full"]
           [VStr "Printer offline"; VNaN] "Password reset").
  - reflexivity.
  - reflexivity.
  - discriminate.
Defined.

(** X6: a catalog phrase that is exactly ["Under analysis"] is taken
    for the initial value of [matched_rca]: when it is the first match,
    the loop stops at it, and then the phrase is made from the work
    notes with confidence 60, as if nothing had matched, also when a
    later phrase of the catalog matches. *)
Theorem under_analysis_phrase_is_no_match
    (text_blob : string) (pre rest : list pyval) (notes : pyval) :
  no_catalog_match text_blob pre = true ->
  contains "under analysis" text_blob = true ->
  resolve_rca text_blob (pre ++ VStr "Under analysis" :: rest) notes
    = Ok (new_rca_from_notes notes).
Proof.
  intros Hpre Hc. unfold resolve_rca.
  rewrite (match_skip_prefix _ _ _ _ Hpre).
  cbn [match_existing_rca].
  change (lower "Under analysis") with "under analysis". rewrite Hc. reflexivity.
Qed.

Lemma under_analysis_phrase_is_no_match_witness :
  resolve_rca "ticket under analysis, disk full"
    ([VStr "Cable unplugged"] ++ VStr "Under analysis" :: [VStr "Disk full"])
    (VStr " waiting for vendor ")
  = Ok (new_rca_from_notes (VStr " waiting for vendor ")).
Proof.
  apply (under_analysis_phrase_is_no_match "ticket under analysis, disk full"
           [VStr "Cable unplugged"] [VStr "Disk full"]); reflexivity.
Defined.

Lemma fallback_cases (text_blob : string) (cats : list pyval) (c : pyval) (r : string) :
  ai_fallback_suggest text_blob cats = Ok (c, r) ->
  (default_branch text_blob = false /\ c = VStr "Configuration issue" /\
   (r = "Resolved after configuration check" \/ r = "No fault found")) \/
  (default_branch text_blob = true /\ (exists rest, cats = c :: rest) /\
   r = "Root cause under investigation").
Proof.
  unfold ai_fallback_suggest, default_branch.
  destruct (contains "resolved" text_blob || contains "fixed" text_blob).
  - intros H. injection H as <- <-. left. auto.
  - destruct (contains "working" text_blob || contains "no issue" text_blob).
    + intros H. injection H as <- <-. left. auto.
    + destruct cats as [|first rest]; [discriminate|].
      intros H. injection H as <- <-. right. eauto.
Qed.

(** X7: what a processed ticket can get.  Either a catalog phrase
    matched: the root cause is that phrase, the category is the
    rule-based one, the confidence is 90; or the fallback ran: category
    and root cause are its pair, the root cause being one of its three
    fixed phrases, the confidence is 70.  The phrase made from the work
    notes is never part of a returned cause. *)
Theorem processed_outcome_shape
    (row : ticket) (rca_list offs cats : list pyval)
    (cause : string) (conf : option Z) (reason : string) :
  process_ticket row rca_list offs cats = Ok (Some cause, conf, reason) ->
  (exists rca,
     In (VStr rca) rca_list /\ contains (lower rca) (text_blob_of row) = true /\
     cause = compose_cause (service_offering row)
               (VStr (rule_category (text_blob_of row))) rca /\
     conf = Some 90%Z /\ reason = "Matched existing RCA: " ++ rca) \/
  (exists category rca,
     ai_fallback_suggest (text_blob_of row) cats = Ok (category, rca) /\
     In rca ["Resolved after configuration check"; "No fault found";
             "Root cause under investigation"] /\
     cause = compose_cause (service_offering row) category rca /\
     conf = Some 70%Z /\ reason = "AI fallback used").
Proof.
  unfold process_ticket, derive_cause.
  destruct (is_valid_cause (existing_cause row) offs cats); [discriminate|].
  destruct (resolve_rca (text_blob_of row) rca_list (work_notes row))
    as [st|e] eqn:Hres; cbn [bind]; [|discriminate].
  destruct (resolve_cases _ _ _ _ Hres) as [->|(rca & Hin & Hc & _ & ->)].
  - unfold new_rca_from_notes, apply_fallback.
    change (60 <? 75)%Z with true. cbv iota.
    destruct (ai_fallback_suggest (text_blob_of row) cats) as [[c r]|e] eqn:Hai;
      cbn [bind]; [|discriminate].
    intros H. injection H as <- <- <-. right. exists c, r.
    repeat split; auto.
    destruct (fallback_cases _ _ _ _ Hai) as [(_ & _ & [->| ->])|(_ & _ & ->)];
      simpl; auto.
  - unfold apply_fallback. change (90 <? 75)%Z with false. cbv iota. cbn [bind].
    intros H. injection H as <- <- <-. left. exists rca. auto.
Qed.

Lemma processed_outcome_shape_witness :
  (exists rca,
     In (VStr rca) [VStr "Disk full"] /\
     contains (lower rca) (text_blob_of laptop_ticket) = true /\
     "Laptop - Configuration issue - Resolved after configuration check"
       = compose_cause (service_offering laptop_ticket)
           (VStr (rule_category (text_blob_of laptop_ticket))) rca /\
     Some 70%Z = Some 90%Z /\ "AI fallback used" = "Matched existing RCA: " ++ rca) \/
  (exists category rca,
     ai_fallback_suggest (text_blob_of laptop_ticket) [VStr "Hardware issue"]
       = Ok (category, rca) /\
     In rca ["Resolved after configuration check"; "No fault found";
             "Root cause under investigation"] /\
     "Laptop - Configuration issue - Resolved after configuration check"
       = compose_cause (service_offering laptop_ticket) category rca /\
     Some 70%Z = Some 70%Z /\ "AI fallback used" = "AI fallback used").
Proof.
  apply (processed_outcome_shape laptop_ticket [VStr "Disk full"] [VStr "Laptop"]
           [VStr "Hardware issue"]).
  reflexivity.
Defined.

(** ** Exceptions of [process_ticket] *)

Lemma dropna_text_column (cells : list pyval) :
  text_column cells = true ->
  Forall (fun v => exists s, v = VStr s) (dropna cells).
Proof.
  induction cells as [|v cells IH]; simpl; [constructor|].
  intros H. apply andb_true_iff in H. destruct H as [Hv Hc].
  destruct v; simpl; try discriminate; auto. constructor; eauto.
Qed.

Lemma match_total_strs (text_blob : string) (rca_list : list pyval) (st : rca_state) :
  Forall (fun v => exists s, v = VStr s) rca_list ->
  exists st', match_existing_rca text_blob rca_list st = Ok st'.
Proof.
  induction 1 as [|v l [s ->] _ IH]; simpl; [eauto|].
  destruct (contains (lower s) text_blob); eauto.
Qed.

Lemma match_raise (text_blob : string) (rca_list : list pyval) (st : rca_state) (e : exn) :
  match_existing_rca text_blob rca_list st = Raise e ->
  e = AttributeError /\ exists v, In v rca_list /\ forall s, v <> VStr s.
Proof.
  induction rca_list as [|v l IH]; simpl; [discriminate|].
  destruct v as [rca| | |].
  - destruct (contains (lower rca) text_blob); [discriminate|].
    intros H. destruct (IH H) as (-> & v & Hin & Hv). split; [reflexivity|]. eauto.
  - intros H. injection H as <-. split; [reflexivity|].
    exists VNaN. split; [auto | discriminate].
  - intros H. injection H as <-. split; [reflexivity|].
    exists VNone. split; [auto | discriminate].
  - intros H. injection H as <-. split; [reflexivity|].
    exists (VInt z). split; [auto | discriminate].
Qed.

(** X8: with a catalog read by [dropna] from a column of texts and
    missing cells, and canonical categories that are not empty,
    [process_ticket] raises nothing: every ticket gets an outcome,
    whatever its cells and the service offerings hold. *)
Theorem healthy_lists_no_exception
    (row : ticket) (rca_cells offs cats : list pyval) :
  text_column rca_cells = true ->
  cats <> [] ->
  exists out, process_ticket row (dropna rca_cells) offs cats = Ok out.
Proof.
  intros Hcol Hcats. unfold process_ticket, derive_cause.
  destruct (is_valid_cause (existing_cause row) offs cats); [eauto|].
  destruct (match_total_strs (text_blob_of row) (dropna rca_cells)
              ("Under analysis", 50%Z, "Rule-based default")
              (dropna_text_column _ Hcol)) as [[[m c] r] Hm].
  unfold resolve_rca. rewrite Hm. cbn [bind].
  assert (Hai : exists p, ai_fallback_suggest (text_blob_of row) cats = Ok p).
  { unfold ai_fallback_suggest.
    destruct (_ || _); [eauto|]. destruct (_ || _); [eauto|].
    destruct cats; [congruence | eauto]. }
  destruct Hai as [[ac ar] Hai].
  destruct (m =? "Under analysis"); cbn [bind]; unfold apply_fallback.
  - unfold new_rca_from_notes. change (60 <? 75)%Z with true. cbv iota.
    rewrite Hai. cbn [bind]. eauto.
  - destruct (c <? 75)%Z; [rewrite Hai|]; cbn [bind]; eauto.
Qed.

Lemma healthy_lists_no_exception_witness :
  exists out,
    process_ticket jam_ticket_missing (dropna [VStr "Disk full"; VNaN; VStr ""; VNone])
      [VInt 7] [VInt 3] = Ok out.
Proof.
  apply healthy_lists_no_exception; [reflexivity | discriminate].
Defined.

Lemma fallback_raise (text_blob : string) (cats : list pyval) (e : exn) :
  ai_fallback_suggest text_blob cats = Raise e ->
  e = IndexError /\ cats = [] /\ default_branch text_blob = true.
Proof.
  unfold ai_fallback_suggest, default_branch.
  destruct (_ || _); [discriminate|].
  destruct (_ || _); [discriminate|].
  destruct cats; [|discriminate].
  intros H. injection H as <-. auto.
Qed.

(** X9: the two ways in which [process_ticket] raises.  An
    AttributeError comes from a catalog entry that is not a str; an
    IndexError comes from an empty list of canonical categories, in the
    default branch of the fallback. *)
Theorem process_ticket_errors
    (row : ticket) (rca_list offs cats : list pyval) (e : exn) :
  process_ticket row rca_list offs cats = Raise e ->
  (e = AttributeError /\ exists v, In v rca_list /\ forall s, v <> VStr s) \/
  (e = IndexError /\ cats = [] /\ default_branch (text_blob_of row) = true).
Proof.
  unfold process_ticket, derive_cause.
  destruct (is_valid_cause (existing_cause row) offs cats); [discriminate|].
  unfold resolve_rca.
  destruct (match_existing_rca (text_blob_of row) rca_list _) as [[[m c] r]|e0] eqn:Hm;
    cbn [bind].
  - destruct (m =? "Under analysis"); cbn [bind]; unfold apply_fallback.
    + unfold new_rca_from_notes. change (60 <? 75)%Z with true. cbv iota.
      destruct (ai_fallback_suggest (text_blob_of row) cats) as [[ac ar]|e1] eqn:E;
        cbn [bind]; [discriminate|].
      intros H. injection H as ->. right. eapply fallback_raise. exact E.
    + destruct (c <? 75)%Z; cbn [bind]; [|discriminate].
      destruct (ai_fallback_suggest (text_blob_of row) cats) as [[ac ar]|e1] eqn:E;
        cbn [bind]; [discriminate|].
      intros H. injection H as ->. right. eapply fallback_raise. exact E.
  - intros H. injection H as ->. left. eapply match_raise. exact Hm.
Qed.

Lemma process_ticket_errors_witness :
  (IndexError = AttributeError /\
   exists v, In v [VStr "Disk full"] /\ forall s, v <> VStr s) \/
  (IndexError = IndexError /\ @nil pyval = [] /\
   default_branch (text_blob_of jam_ticket_empty) = true).
Proof.
  apply (process_ticket_errors jam_ticket_empty [VStr "Disk full"] [VStr "Printer"] []).
  reflexivity.
Defined.

(** ** Composed causes and the next run *)

Lemma compose_valid (svc cat rca : string) (offs cats : list pyval) :
  strip svc = svc -> contains " -" svc = false ->
  strip cat = cat -> contains " -" cat = false ->
  contains " - " rca = false ->
  is_valid_cause (VStr (svc ++ " - " ++ cat ++ " - " ++ rca)) offs cats
  = str_in svc offs && str_in cat cats && negb (strip rca =? "").
Proof.
  intros Hs1 Hs2 Hc1 Hc2 Hr.
  assert (Hsplit : split_sep (svc ++ " - " ++ cat ++ " - " ++ rca) = [svc; cat; rca]).
  { rewrite (split_sep_app svc _ Hs2), (split_sep_app cat _ Hc2),
            (split_sep_single rca Hr). reflexivity. }
  rewrite (is_valid_cause_parts _ offs cats _ _ _ Hsplit), Hs1, Hc1. reflexivity.
Qed.

Lemma compose_cause_nonempty (service category : pyval) (rca : string) :
  compose_cause service category rca <> "".
Proof. unfold compose_cause. destruct (str service); discriminate. Qed.

(** X10: a ticket repaired by the first two fallback rules gets the
    category ["Configuration issue"], which is not taken from the
    canonical categories.  For a service offering that is a member of
    the service offerings, without white space at its ends and without
    [" -"], the composed cause is valid, and the ticket skipped in the
    next run, exactly when ["Configuration issue"] is a canonical
    category; otherwise the ticket is processed again in every run. *)
Theorem fallback_cause_revalidation
    (row : ticket) (rca_list offs cats : list pyval)
    (svc phrase : string) (conf : Z) (reason : string) :
  service_offering row = VStr svc ->
  strip svc = svc -> contains " -" svc = false -> str_in svc offs = true ->
  is_valid_cause (existing_cause row) offs cats = false ->
  resolve_rca (text_blob_of row) rca_list (work_notes row) = Ok (phrase, conf, reason) ->
  (conf < 75)%Z ->
  default_branch (text_blob_of row) = false ->
  exists cause,
    process_ticket row rca_list offs cats = Ok (Some cause, Some 70%Z, "AI fallback used") /\
    (is_valid_cause (VStr cause) offs cats = true <-> In (VStr "Configuration issue") cats).
Proof.
  intros Hsvc Hs1 Hs2 Hin Hskip Hres Hlt Hdef.
  assert (Hai : exists r,
            ai_fallback_suggest (text_blob_of row) cats = Ok (VStr "Configuration issue", r) /\
            (r = "Resolved after configuration check" \/ r = "No fault found")).
  { unfold default_branch in Hdef. unfold ai_fallback_suggest.
    destruct (contains "resolved" _ || contains "fixed" _); [eauto|].
    destruct (contains "working" _ || contains "no issue" _); [eauto|discriminate]. }
  destruct Hai as (r & Hai & Hr).
  exists (svc ++ " - " ++ "Configuration issue" ++ " - " ++ r). split.
  - unfold process_ticket, derive_cause. rewrite Hskip, Hres. cbn [bind].
    unfold apply_fallback. apply Z.ltb_lt in Hlt. rewrite Hlt, Hai, Hsvc. reflexivity.
  - rewrite compose_valid; auto; try (destruct Hr as [-> | ->]; reflexivity).
    rewrite Hin, <- str_in_In. cbn [andb].
    assert (Hne : negb (strip r =? "") = true) by (destruct Hr as [-> | ->]; reflexivity).
    rewrite Hne, andb_true_r. tauto.
Qed.

Lemma fallback_cause_revalidation_witness :
  exists cause,
    process_ticket laptop_ticket [VStr "Disk full"] [VStr "Laptop"] [VStr "Access issue"]
      = Ok (Some cause, Some 70%Z, "AI fallback used") /\
    (is_valid_cause (VStr cause) [VStr "Laptop"] [VStr "Access issue"] = true <->
     In (VStr "Configuration issue") [VStr "Access issue"]).
Proof.
  apply (fallback_cause_revalidation laptop_ticket [VStr "Disk full"] [VStr "Laptop"]
           [VStr "Access issue"] "Laptop" "issue resolved after password reset" 60%Z
           "New RCA created from work notes"); reflexivity.
Defined.



Lemma matched_reason_fallback_word (rca : string) :
  contains "AI fallback" ("Matched existing RCA: " ++ rca) = contains "AI fallback" rca.
Proof.
  cbn [append]. repeat (rewrite contains_cons, prefix_cons; cbn [Ascii.eqb Bool.eqb andb orb]).
  reflexivity.
Qed.

(** X12: the test ["AI fallback" in reason] of bulk mode.  When no
    phrase of the catalog holds the words ["AI fallback"], the test is
    true for a processed ticket exactly when the fallback ran, that is
    when the confidence is 70. *)
Theorem fallback_counter_exact
    (row : ticket) (rca_list offs cats : list pyval)
    (cause : string) (conf : Z) (reason : string) :
  (forall rca, In (VStr rca) rca_list -> contains "AI fallback" rca = false) ->
  process_ticket row rca_list offs cats = Ok (Some cause, Some conf, reason) ->
  (contains "AI fallback" reason = true <-> conf = 70%Z).
Proof.
  intros Hcat. unfold process_ticket, derive_cause.
  destruct (is_valid_cause (existing_cause row) offs cats); [discriminate|].
  destruct (resolve_rca (text_blob_of row) rca_list (work_notes row))
    as [st|e] eqn:Hres; cbn [bind]; [|discriminate].
  destruct (resolve_cases _ _ _ _ Hres) as [->|(rca & Hin & _ & _ & ->)].
  - unfold new_rca_from_notes, apply_fallback.
    change (60 <? 75)%Z with true. cbv iota.
    destruct (ai_fallback_suggest (text_blob_of row) cats) as [[c r]|e];
      cbn [bind]; [|discriminate].
    intros H. injection H as _ <- <-. split; reflexivity.
  - unfold apply_fallback. change (90 <? 75)%Z with false. cbv iota. cbn [bind].
    intros H. injection H as _ <- <-.
    change (contains "AI fallback" ("Matched existing RCA: " ++ rca) = true <-> 90%Z = 70%Z).
    rewrite matched_reason_fallback_word, (Hcat _ Hin). split; discriminate.
Qed.

Lemma fallback_counter_exact_witness :
  contains "AI fallback" "Matched existing RCA: Password reset" = true <-> 90%Z = 70%Z.
Proof.
  apply (fallback_counter_exact laptop_ticket [VStr "Disk full"; VStr "Password reset"]
           [VStr "Laptop"] [VStr "Configuration issue"]
           "Laptop - Access issue - Password reset").
  - intros rca [H|[H|[]]]; injection H as <-; reflexivity.
  - reflexivity.
Defined.

(** ** Bulk mode *)

Section Bulk.

Variable as_series : ticket -> ticket.
Variables rca_list offs cats : list pyval.

(** The existing cause, as it reaches [process_ticket], is valid. *)
Let valid (row : ticket) : bool :=
  is_valid_cause (existing_cause (as_series row)) offs cats.

Lemma process_ticket_outcomes (row : ticket) (out : outcome) :
  process_ticket row rca_list offs cats = Ok out ->
  (is_valid_cause (existing_cause row) offs cats = true /\
   out = (None, None, "Skipped (already valid)")) \/
  (is_valid_cause (existing_cause row) offs cats = false /\
   exists cause conf reason, out = (Some cause, Some conf, reason) /\ cause <> "").
Proof.
  unfold process_ticket.
  destruct (is_valid_cause (existing_cause row) offs cats).
  - intros H. injection H as <-. left. auto.
  - destruct (derive_cause row rca_list cats) as [[cat [[m c] r]]|e]; cbn [bind];
      [|discriminate].
    intros H. injection H as <-. right. split; [reflexivity|].
    eexists _, _, _. split; [reflexivity | apply compose_cause_nonempty].
Qed.

Lemma write_back_same_but_cause (row : ticket) (out : outcome) :
  same_but_cause row (write_back row out).
Proof.
  destruct out as [[[c|] conf] reason]; unfold write_back;
    [destruct (truthy (Some c))|]; repeat split.
Qed.

Lemma bulk_loop_counts (rows rows' : list ticket) (c c' : counters) :
  bulk_loop as_series rows rca_list offs cats c = Ok (rows', c') ->
  skipped c' = skipped c + List.length (filter valid rows) /\
  processed c' = processed c + List.length (filter (fun r => negb (valid r)) rows) /\
  ai_used c <= ai_used c' /\
  ai_used c' + processed c <= ai_used c + processed c'.
Proof.
  revert rows' c c'. induction rows as [|row rest IH]; intros rows' c c'.
  - simpl. intros H. injection H as _ <-. lia.
  - cbn [bulk_loop].
    destruct (process_ticket (as_series row) rca_list offs cats) as [out|e] eqn:Hp;
      cbn [bind]; [|discriminate].
    destruct (bulk_loop as_series rest rca_list offs cats (count_outcome c out))
      as [[rest' c1]|e] eqn:Hl; cbn [bind]; [|discriminate].
    intros H. injection H as _ <-.
    destruct (IH _ _ _ Hl) as (Hs & Hpr & Ha & Hb).
    destruct (process_ticket_outcomes _ _ Hp)
      as [(Hv & ->)|(Hv & cause & conf & reason & -> & Hne)];
      [assert (Hv' : valid row = true) by exact Hv
      |assert (Hv' : valid row = false) by exact Hv];
      cbn [filter]; rewrite Hv'; cbn [negb].
    + simpl in *. lia.
    + unfold count_outcome, truthy in *. apply String.eqb_neq in Hne.
      rewrite Hne in *. cbn [negb] in *.
      destruct (contains "AI fallback" reason); simpl in *; lia.
Qed.

Lemma bulk_loop_frame (rows rows' : list ticket) (c c' : counters) :
  bulk_loop as_series rows rca_list offs cats c = Ok (rows', c') ->
  Forall2 same_but_cause rows rows'.
Proof.
  revert rows' c c'. induction rows as [|row rest IH]; intros rows' c c'.
  - simpl. intros H. injection H as <- _. constructor.
  - cbn [bulk_loop].
    destruct (process_ticket (as_series row) rca_list offs cats) as [out|e];
      cbn [bind]; [|discriminate].
    destruct (bulk_loop as_series rest rca_list offs cats (count_outcome c out))
      as [[rest' c1]|e] eqn:Hl; cbn [bind]; [|discriminate].
    intros H. injection H as <- _.
    constructor; [apply write_back_same_but_cause | eapply IH; eauto].
Qed.

Lemma bulk_loop_all_valid (rows : list ticket) (c : counters) :
  forallb valid rows = true ->
  bulk_loop as_series rows rca_list offs cats c
  = Ok (rows, mkCounters (processed c) (skipped c + List.length rows) (ai_used c)).
Proof.
  revert c. induction rows as [|row rest IH]; intros c H.
  - simpl. rewrite Nat.add_0_r. destruct c; reflexivity.
  - cbn [forallb] in H. apply andb_true_iff in H. destruct H as [Hv Hr].
    cbn [bulk_loop]. unfold process_ticket. unfold valid in Hv. rewrite Hv. cbn [bind].
    rewrite (IH _ Hr). cbn [bind]. simpl.
    rewrite Nat.add_succ_r. reflexivity.
Qed.

Lemma bulk_loop_raise (pre post : list ticket) (row : ticket) (e : exn) (c : counters) :
  (forall r, In r pre ->
     exists out, process_ticket (as_series r) rca_list offs cats = Ok out) ->
  process_ticket (as_series row) rca_list offs cats = Raise e ->
  bulk_loop as_series (pre ++ row :: post) rca_list offs cats c = Raise e.
Proof.
  revert c. induction pre as [|r pre IH]; intros c Hpre Hrow.
  - cbn [app bulk_loop]. rewrite Hrow. reflexivity.
  - cbn [app bulk_loop]. destruct (Hpre r (or_introl eq_refl)) as [out ->]. cbn [bind].
    rewrite IH; [reflexivity | | exact Hrow].
    intros r' Hin. apply Hpre. right. exact Hin.
Qed.

End Bulk.

(** X13: the counters of a bulk run that ends, for every way in which
    [iterrows()] hands the rows over.  [skipped] is the number of rows
    whose existing cause, as it reached [process_ticket], was valid,
    [processed] the number of the other rows, so the two add up to the
    number of rows; [ai_used] is at most [processed]. *)
Theorem bulk_mode_counters
    (as_series : ticket -> ticket)
    (tickets_df tickets_df' : list ticket) (rca_list offs cats : list pyval)
    (c : counters) :
  bulk_mode as_series tickets_df rca_list offs cats = Ok (tickets_df', c) ->
  skipped c
    = List.length
        (filter (fun r => is_valid_cause (existing_cause (as_series r)) offs cats)
           tickets_df) /\
  processed c
    = List.length
        (filter (fun r => negb (is_valid_cause (existing_cause (as_series r)) offs cats))
           tickets_df) /\
  processed c + skipped c = List.length tickets_df /\
  ai_used c <= processed c.
Proof.
  unfold bulk_mode. intros H.
  destruct (bulk_loop_counts _ _ _ _ _ _ _ _ H) as (Hs & Hp & _ & Ha). simpl in *.
  repeat split; try assumption; try lia.
  rewrite Hs, Hp. clear.
  induction tickets_df as [|r l IH]; [reflexivity|].
  cbn [filter].
  destruct (is_valid_cause (existing_cause (as_series r)) offs cats); simpl in *; lia.
Qed.

Lemma bulk_mode_counters_witness :
  skipped (mkCounters 2 1 2)
    = List.length (filter (fun r => is_valid_cause (existing_cause r)
                                      [VStr "Laptop"; VStr "Printer"]
                                      [VStr "Configuration issue"])
                     [laptop_ticket; valid_ticket; jam_ticket_missing]) /\
  processed (mkCounters 2 1 2)
    = List.length (filter (fun r => negb (is_valid_cause (existing_cause r)
                                            [VStr "Laptop"; VStr "Printer"]
                                            [VStr "Configuration issue"]))
                     [laptop_ticket; valid_ticket; jam_ticket_missing]) /\
  processed (mkCounters 2 1 2) + skipped (mkCounters 2 1 2)
    = List.length [laptop_ticket; valid_ticket; jam_ticket_missing] /\
  ai_used (mkCounters 2 1 2) <= processed (mkCounters 2 1 2).
Proof.
  apply (bulk_mode_counters (fun r => r)
           [laptop_ticket; valid_ticket; jam_ticket_missing]
           [set_existing_cause laptop_ticket
              "Laptop - Configuration issue - Resolved after configuration check";
            valid_ticket;
            set_existing_cause jam_ticket_missing
              "Printer - Configuration issue - Root cause under investigation"]
           [VStr "Disk full"]).
  reflexivity.
Defined.

(** X14: a bulk run that ends returns as many rows as it got, in the
    same order, and changes no cell of a row but [existing_cause],
    however [iterrows()] hands the rows over. *)
Theorem bulk_mode_frame
    (as_series : ticket -> ticket)
    (tickets_df tickets_df' : list ticket) (rca_list offs cats : list pyval)
    (c : counters) :
  bulk_mode as_series tickets_df rca_list offs cats = Ok (tickets_df', c) ->
  List.length tickets_df' = List.length tickets_df /\
  Forall2 same_but_cause tickets_df tickets_df'.
Proof.
  unfold bulk_mode. intros H.
  pose proof (bulk_loop_frame _ _ _ _ _ _ _ _ H) as Hf.
  split; [symmetry; eapply Forall2_length; eauto | exact Hf].
Qed.

Lemma bulk_mode_frame_witness :
  List.length [set_existing_cause laptop_ticket
                 "Laptop - Configuration issue - Resolved after configuration check";
               valid_ticket]
    = List.length [laptop_ticket; valid_ticket] /\
  Forall2 same_but_cause [laptop_ticket; valid_ticket]
    [set_existing_cause laptop_ticket
       "Laptop - Configuration issue - Resolved after configuration check";
     valid_ticket].
Proof.
  apply (bulk_mode_frame (fun r => r) _ _ [VStr "Disk full"] [VStr "Laptop"]
           [VStr "Configuration issue"] (mkCounters 1 1 1)).
  reflexivity.
Defined.

(** X15: on a table in which every existing cause, as it reaches
    [process_ticket], is valid, bulk mode changes nothing and raises
    nothing, whatever the catalog holds: it returns the table as it is,
    with every row counted as skipped. *)
Theorem bulk_mode_all_valid
    (as_series : ticket -> ticket)
    (tickets_df : list ticket) (rca_list offs cats : list pyval) :
  forallb (fun r => is_valid_cause (existing_cause (as_series r)) offs cats) tickets_df
    = true ->
  bulk_mode as_series tickets_df rca_list offs cats
  = Ok (tickets_df, mkCounters 0 (List.length tickets_df) 0).
Proof.
  intros H. unfold bulk_mode. rewrite bulk_loop_all_valid by exact H. reflexivity.
Qed.

Lemma bulk_mode_all_valid_witness :
  bulk_mode (fun r => r) [valid_ticket; valid_ticket] [VNaN] [VStr "Laptop"]
    [VStr "Configuration issue"]
  = Ok ([valid_ticket; valid_ticket], mkCounters 0 (List.length [valid_ticket; valid_ticket]) 0).
Proof. apply bulk_mode_all_valid. reflexivity. Defined.

(** What [process_ticket] gets decides: on the Series of the numeric
    row the first catalog phrase matches and the loop stops in front of
    the entry that is not a str; on the cells of the table it would
    not match, and the second entry would raise. *)
Example numeric_row_as_series :
  text_blob_of numeric_row_series = "3.0 4.0 5.0" /\
  process_ticket numeric_row_series [VStr "4.0"; VInt 7] [] []
    = Ok (Some "2.0 - Configuration issue - 4.0", Some 90%Z, "Matched existing RCA: 4.0") /\
  process_ticket numeric_row [VStr "4.0"; VInt 7] [] [] = Raise AttributeError.
Proof. repeat split; reflexivity. Qed.

(** X16: one ticket that raises ends the bulk run: when the rows in
    front of it, as [iterrows()] hands them over, are processed without
    error and [process_ticket] raises on it, bulk mode raises the same
    exception and returns no table, so the causes computed for the rows
    in front are not saved. *)
Theorem bulk_mode_raise
    (as_series : ticket -> ticket)
    (pre post : list ticket) (row : ticket) (rca_list offs cats : list pyval) (e : exn) :
  (forall r, In r pre ->
     exists out, process_ticket (as_series r) rca_list offs cats = Ok out) ->
  process_ticket (as_series row) rca_list offs cats = Raise e ->
  bulk_mode as_series (pre ++ row :: post) rca_list offs cats = Raise e.
Proof. intros Hpre Hrow. unfold bulk_mode. apply bulk_loop_raise; assumption. Qed.

Lemma bulk_mode_raise_witness :
  bulk_mode (fun r => r) ([laptop_ticket] ++ jam_ticket_empty :: [valid_ticket])
    [VStr "Disk full"] [VStr "Laptop"] [] = Raise IndexError.
Proof.
  apply bulk_mode_raise.
  - intros r [<-|[]]. eexists. reflexivity.
  - reflexivity.
Defined.

(** ** Single mode *)

Lemma cell_eq_true (cell selected : pyval) : cell_eq cell selected = true -> cell = selected.
Proof.
  destruct cell, selected; simpl; try discriminate.
  - intros H. apply String.eqb_eq in H. congruence.
  - intros H. apply Z.eqb_eq in H. congruence.
Qed.

Lemma cell_eq_missing (cell selected : pyval) : isna selected = true -> cell_eq cell selected = false.
Proof. destruct cell, selected; simpl; try discriminate; reflexivity. Qed.

Lemma map_unchanged (select : ticket -> bool) (rows : list ticket) :
  map (fun r => if select r then r else r) rows = rows.
Proof.
  induction rows as [|r l IH]; simpl; [reflexivity|].
  rewrite IH. destruct (select r); reflexivity.
Qed.

(** X17: single mode raises IndexError, and processes nothing, when
    no row carries the selected ticket number; that is always so for a
    selected number that is a missing cell, which equals no cell, not
    even itself. *)
Theorem single_mode_not_found
    (as_series : ticket -> ticket)
    (tickets_df : list ticket) (selected_ticket : pyval)
    (rca_list offs cats : list pyval) :
  isna selected_ticket = true \/
  (forall r, In r tickets_df -> ticket_number r <> selected_ticket) ->
  single_mode as_series tickets_df selected_ticket rca_list offs cats = Raise IndexError.
Proof.
  intros H. unfold single_mode.
  destruct (find _ tickets_df) as [first|] eqn:Hf; [|reflexivity].
  apply find_some in Hf. destruct Hf as [Hin Heq]. exfalso.
  destruct H as [H|H].
  - rewrite (cell_eq_missing _ _ H) in Heq. discriminate.
  - apply cell_eq_true in Heq. exact (H _ Hin Heq).
Qed.

Lemma single_mode_not_found_witness :
  single_mode (fun r => r)
    [mkTicket VNaN (VStr "Laptop") (VStr "no sound") VNaN VNaN VNaN; laptop_ticket]
    VNaN [VStr "Disk full"] [VStr "Laptop"] [VStr "Configuration issue"]
  = Raise IndexError.
Proof. apply single_mode_not_found. left. reflexivity. Defined.

(** X18: a single-mode run that ends has processed the first row
    with the selected number, in the form in which [.iloc[0]] hands it
    over, and has written the outcome to every row of the table with
    the selected number: rows with another number are unchanged, and
    the table keeps its length and order. *)
Theorem single_mode_frame
    (as_series : ticket -> ticket)
    (tickets_df tickets_df' : list ticket) (selected_ticket : pyval)
    (rca_list offs cats : list pyval) (out : outcome) :
  single_mode as_series tickets_df selected_ticket rca_list offs cats
    = Ok (tickets_df', out) ->
  (exists first,
     find (fun r => cell_eq (ticket_number r) selected_ticket) tickets_df = Some first /\
     process_ticket (as_series first) rca_list offs cats = Ok out) /\
  tickets_df' = map (fun r => if cell_eq (ticket_number r) selected_ticket
                              then write_back r out else r) tickets_df /\
  List.length tickets_df' = List.length tickets_df.
Proof.
  unfold single_mode.
  destruct (find _ tickets_df) as [first|] eqn:Hf; [|discriminate].
  cbv zeta.
  destruct (process_ticket (as_series first) rca_list offs cats)
    as [[[cause conf] reason]|e] eqn:Hp; cbn [bind]; [|discriminate].
  assert (Hmap : forall t',
            t' = map (fun r => if cell_eq (ticket_number r) selected_ticket
                               then write_back r (cause, conf, reason) else r) tickets_df ->
            List.length t' = List.length tickets_df).
  { intros t' ->. apply length_map. }
  destruct cause as [c|].
  - destruct (truthy (Some c)) eqn:Ht; intros H; injection H as <- <-.
    + assert (E : map (fun r => if cell_eq (ticket_number r) selected_ticket
                                then set_existing_cause r c else r) tickets_df
                  = map (fun r => if cell_eq (ticket_number r) selected_ticket
                                  then write_back r (Some c, conf, reason) else r) tickets_df).
      { apply map_ext. intros r. unfold write_back. rewrite Ht. reflexivity. }
      split; [eauto|]. split; [exact E | apply Hmap, E].
    + assert (E : tickets_df
                  = map (fun r => if cell_eq (ticket_number r) selected_ticket
                                  then write_back r (Some c, conf, reason) else r) tickets_df).
      { unfold write_back. rewrite Ht. symmetry. apply map_unchanged. }
      split; [eauto|]. split; [exact E | reflexivity].
  - intros H. injection H as <- <-.
    split; [eauto|]. split; [|reflexivity].
    symmetry. apply (map_unchanged (fun r => cell_eq (ticket_number r) selected_ticket)).
Qed.

Lemma single_mode_frame_witness :
  (exists first,
     find (fun r => cell_eq (ticket_number r) (VStr "INC001"))
       [valid_ticket; laptop_ticket; laptop_row (VStr "INC001")] = Some first /\
     process_ticket first [VStr "Disk full"] [VStr "Laptop"] [VStr "Configuration issue"]
       = Ok (Some "Laptop - Configuration issue - Resolved after configuration check",
             Some 70%Z, "AI fallback used")) /\
  [valid_ticket;
   set_existing_cause laptop_ticket
     "Laptop - Configuration issue - Resolved after configuration check";
   set_existing_cause laptop_ticket
     "Laptop - Configuration issue - Resolved after configuration check"]
  = map (fun r => if cell_eq (ticket_number r) (VStr "INC001")
                  then write_back r
                         (Some "Laptop - Configuration issue - Resolved after configuration check",
                          Some 70%Z, "AI fallback used")
                  else r)
      [valid_ticket; laptop_ticket; laptop_row (VStr "INC001")] /\
  List.length
    [valid_ticket;
     set_existing_cause laptop_ticket
       "Laptop - Configuration issue - Resolved after configuration check";
     set_existing_cause laptop_ticket
       "Laptop - Configuration issue - Resolved after configuration check"]
  = List.length [valid_ticket; laptop_ticket; laptop_row (VStr "INC001")].
Proof.
  apply (single_mode_frame (fun r => r) _ _ (VStr "INC001") [VStr "Disk full"]
           [VStr "Laptop"] [VStr "Configuration issue"]).
  reflexivity.
Defined.
